(** * Jenkins pipeline provider: configuration codec and reconciliation

    A shallow embedding of [resource_jenkins_pipeline.go] and
    [datasource_jenkins_pipeline.go].  Go strings are byte sequences and are
    represented by [string] (one [ascii] per byte); Go's [int] is
    represented by [Z]. *)

From Stdlib Require Import ZArith List String Ascii Bool Lia Floats.
Import ListNotations.
Open Scope string_scope.
Open Scope Z_scope.

(** ** The parts of Go's [strings] and [fmt] packages the program uses *)

Module GoStrings.

(** [len(s)] *)
Definition len (s : string) : Z := Z.of_nat (String.length s).

(** [strings.HasPrefix(s, prefix)] *)
Fixpoint HasPrefix (s prefix : string) {struct prefix} : bool :=
  match prefix with
  | EmptyString => true
  | String c prefix' =>
      match s with
      | EmptyString => false
      | String d s' => Ascii.eqb c d && HasPrefix s' prefix'
      end
  end.

(** [strings.Index(s, substr)]: the index of the first instance of [substr]
    in [s], or [-1] if [substr] is not present in [s]. *)
Fixpoint Index (s substr : string) : Z :=
  if HasPrefix s substr then 0
  else match s with
       | EmptyString => -1
       | String _ s' =>
           let r := Index s' substr in
           if r =? -1 then -1 else r + 1
       end.

(** [strings.Contains(s, substr)] is [Index(s, substr) >= 0]. *)
Definition Contains (s substr : string) : bool := Index s substr >=? 0.

(** Slicing.  [drop n s] and [take n s] are the two halves of [s] at byte
    [n]; [slice_from s a] is [s[a:]] and [slice s a b] is [s[a:b]].  Go
    panics when the bounds are out of range; every use in the program is in
    range (lemma [extractor_slices_in_range] below). *)
Fixpoint drop (n : nat) (s : string) : string :=
  match n, s with
  | O, _ => s
  | S n', String _ s' => drop n' s'
  | S _, EmptyString => EmptyString
  end.

Fixpoint take (n : nat) (s : string) : string :=
  match n, s with
  | O, _ => EmptyString
  | S n', String c s' => String c (take n' s')
  | S _, EmptyString => EmptyString
  end.

Definition slice_from (s : string) (a : Z) : string := drop (Z.to_nat a) s.

Definition slice (s : string) (a b : Z) : string :=
  take (Z.to_nat (b - a)) (drop (Z.to_nat a) s).

(** [fmt.Sprintf(format, args...)] restricted to string operands and the
    [%s] verb, the only verb in the formats of the modelled functions.  An
    operand is copied verbatim and is not scanned again. *)
Fixpoint Sprintf (format : string) (args : list string) : string :=
  match format with
  | EmptyString => EmptyString
  | String c rest =>
      match rest with
      | EmptyString => String c EmptyString
      | String v rest' =>
          if Ascii.eqb c "%" && Ascii.eqb v "s" then
            match args with
            | a :: args' => a ++ Sprintf rest' args'
            | [] => "%!s(MISSING)" ++ Sprintf rest' []
            end
          else String c (Sprintf rest args)
      end
  end.

End GoStrings.
Import GoStrings.

(** ** Errors *)

(** A Go [error] is represented by its message ([err.Error()]); a call
    returning [(T, error)] returns [Ok t] when the error is nil. *)
Inductive result (T : Type) : Type :=
| Ok (t : T)
| Err (e : string).
Arguments Ok {T} t.
Arguments Err {T} e.

Definition is_ok {T} (r : result T) : bool :=
  match r with Ok _ => true | Err _ => false end.

(** ** ConfigCodec *)

Definition nl : string := String (ascii_of_nat 10) EmptyString.
Definition dq : string := String (ascii_of_nat 34) EmptyString.

(** The raw string literal of [buildPipelineConfigXML]. *)
Definition configTemplate : string :=
  "<?xml version='1.1' encoding='UTF-8'?>" ++ nl ++
  "<flow-definition plugin=" ++ dq ++ "workflow-job@1254.v3f669a_b_a_083a_" ++ dq ++ ">" ++ nl ++
  "  <description>%s</description>" ++ nl ++
  "  <keepDependencies>false</keepDependencies>" ++ nl ++
  "  <properties/>" ++ nl ++
  "  <definition class=" ++ dq ++ "org.jenkinsci.plugins.workflow.cps.CpsFlowDefinition" ++ dq ++
  " plugin=" ++ dq ++ "workflow-cps@2807.v39e1503c779e" ++ dq ++ ">" ++ nl ++
  "    <script><![CDATA[%s]]></script>" ++ nl ++
  "    <sandbox>true</sandbox>" ++ nl ++
  "  </definition>" ++ nl ++
  "  <triggers/>" ++ nl ++
  "  <disabled>false</disabled>" ++ nl ++
  "</flow-definition>".

Definition buildPipelineConfigXML (description groovyScript : string) : string :=
  let configXML := Sprintf configTemplate [description; groovyScript] in
  configXML.

Definition scriptStart : string := "<script><![CDATA[".
Definition scriptEnd : string := "]]></script>".

Definition extractGroovyScriptFromXML (xmlConfig : string) : result string :=
  let startIndex := Index xmlConfig scriptStart in
  if startIndex =? -1 then
    Err "could not find start of Groovy script tag in XML"
  else
    let startIndex := startIndex + len scriptStart in
    let endIndex := Index (slice_from xmlConfig startIndex) scriptEnd in
    if endIndex =? -1 then
      Err "could not find end of Groovy script tag in XML"
    else
      let endIndex := endIndex + startIndex in
      Ok (slice xmlConfig startIndex endIndex).

Definition descStart : string := "<description>".
Definition descEnd : string := "</description>".

Definition extractDescriptionFromXML (xmlConfig : string) : result string :=
  let startIndex := Index xmlConfig descStart in
  if startIndex =? -1 then
    Err "could not find start of description tag in XML"
  else
    let startIndex := startIndex + len descStart in
    let endIndex := Index (slice_from xmlConfig startIndex) descEnd in
    if endIndex =? -1 then
      Err "could not find end of description tag in XML"
    else
      let endIndex := endIndex + startIndex in
      Ok (slice xmlConfig startIndex endIndex).

(** ** The parts of terraform-plugin-framework the program uses *)

(** [types.String]: null, unknown or a known value. *)
Inductive tfString : Type :=
| StringNull
| StringUnknown
| StringValue (s : string).

Definition IsNull (v : tfString) : bool :=
  match v with StringNull => true | _ => false end.

Definition IsUnknown (v : tfString) : bool :=
  match v with StringUnknown => true | _ => false end.

(** [ValueString()] is the empty string for a null or unknown value. *)
Definition ValueString (v : tfString) : string :=
  match v with StringValue s => s | _ => "" end.

(** [types.Int64] *)
Inductive tfInt64 : Type :=
| Int64Null
| Int64Unknown
| Int64Value (z : Z).

Inductive Severity : Type := SeverityError | SeverityWarning.

Record Diagnostic : Type := mkDiagnostic {
  severity : Severity;
  summary : string;
  detail : string
}.

Definition Diagnostics : Type := list Diagnostic.

Definition Severity_eqb (a b : Severity) : bool :=
  match a, b with
  | SeverityError, SeverityError => true
  | SeverityWarning, SeverityWarning => true
  | _, _ => false
  end.

Definition Diagnostic_Equal (a b : Diagnostic) : bool :=
  Severity_eqb (severity a) (severity b)
  && String.eqb (summary a) (summary b)
  && String.eqb (detail a) (detail b).

Definition isError (d : Diagnostic) : bool := Severity_eqb (severity d) SeverityError.

(** [diags.HasError()] *)
Definition HasError (diags : Diagnostics) : bool := existsb isError diags.

(** [diags.Contains(d)] *)
Definition Diagnostics_Contains (diags : Diagnostics) (d : Diagnostic) : bool :=
  existsb (Diagnostic_Equal d) diags.

(** [diags.Append(in...)]: a diagnostic already present is not added again. *)
Fixpoint Diagnostics_Append (diags in_ : Diagnostics) : Diagnostics :=
  match in_ with
  | [] => diags
  | d :: rest =>
      if Diagnostics_Contains diags d then Diagnostics_Append diags rest
      else Diagnostics_Append (diags ++ [d])%list rest
  end.

(** [diags.AddError(summary, detail)] *)
Definition Diagnostics_AddError (summary detail : string) (diags : Diagnostics) : Diagnostics :=
  Diagnostics_Append diags [mkDiagnostic SeverityError summary detail].

(** A request container ([req.Plan], [req.State], [req.Config]) is
    represented by the outcome of its [Get(ctx, &target)]: the diagnostics
    returned and the value left in the target. *)
Record tfsdkData (M : Type) : Type := mkData {
  Get : Diagnostics * M
}.
Arguments mkData {M} _.
Arguments Get {M} _.

(** A response ([resp *XResponse]): the diagnostics and the state container;
    [State = None] is the null state. *)
Record Response (M : Type) : Type := mkResponse {
  Diagnostics_ : Diagnostics;
  State : option M
}.
Arguments mkResponse {M} _ _.
Arguments Diagnostics_ {M} _.
Arguments State {M} _.

Section ResponseOps.
Context {M : Type}.

(** [resp.Diagnostics.Append(diags...)] *)
Definition Append (diags : Diagnostics) (resp : Response M) : Response M :=
  mkResponse (Diagnostics_Append (Diagnostics_ resp) diags) (State resp).

(** [resp.Diagnostics.AddError(summary, detail)] *)
Definition AddError (summary detail : string) (resp : Response M) : Response M :=
  mkResponse (Diagnostics_AddError summary detail (Diagnostics_ resp)) (State resp).

(** [resp.Diagnostics.Append(resp.State.Set(ctx, &m)...)]: the model
    structs match their schemas, so [Set] stores the value and returns no
    diagnostics. *)
Definition State_Set (m : M) (resp : Response M) : Response M :=
  Append [] (mkResponse (Diagnostics_ resp) (Some m)).

(** [resp.State.RemoveResource(ctx)] *)
Definition RemoveResource (resp : Response M) : Response M :=
  mkResponse (Diagnostics_ resp) None.
End ResponseOps.

(** ** The parts of gojenkins the program uses *)

Record JobBuild : Type := mkJobBuild {
  Number : Z
}.

Record JobResponse : Type := mkJobResponse {
  JobResponse_Name : string;
  JobResponse_Description : string;
  LastCompletedBuild : JobBuild
}.

Record Job : Type := mkJob {
  Job_Raw : JobResponse
}.

Record BuildResponse : Type := mkBuildResponse {
  Result : string;
  Duration : float
}.

Record Build : Type := mkBuild {
  Build_Raw : BuildResponse
}.

(** The conversion [int64(f)] of a [float64]: truncation toward zero.  Where
    the value is not representable Go leaves the result to the
    implementation; the value taken here is the one of amd64. *)
Definition int64_of_float64 (f : float) : Z :=
  match Prim2SF f with
  | S754_zero _ => 0
  | S754_finite s m e =>
      let v := if 0 <=? e then Zpos m * 2 ^ e else Zpos m / 2 ^ (- e) in
      let v := if s then - v else v in
      if (- 2 ^ 63 <=? v) && (v <? 2 ^ 63) then v else - 2 ^ 63
  | _ => - 2 ^ 63
  end.

(** The remote calls: the methods of [*gojenkins.Jenkins] and of
    [*gojenkins.Job] that are invoked. *)
Inductive call : Type :=
| JobExists (name : string)
| CreateJob (config name : string)
| GetJob (name : string)
| GetJobConfig (name : string)
| UpdateJob (name config : string)
| DeleteJob (name : string)
| Job_GetConfig (job : Job)
| Job_GetLastCompletedBuild (job : Job).

Definition answer (c : call) : Type :=
  match c with
  | JobExists _ => result bool
  | CreateJob _ _ => result Job
  | GetJob _ => result Job
  | GetJobConfig _ => result string
  | UpdateJob _ _ => result Job
  | DeleteJob _ => result bool
  | Job_GetConfig _ => result string
  | Job_GetLastCompletedBuild _ => result Build
  end.

(** ** Programs over the remote collaborator

    A lifecycle operation is a tree of remote calls; besides them it reads
    the clock ([time.Now().Format(time.RFC3339)]) and writes log lines
    ([log.Printf]). *)
Inductive Prog (A : Type) : Type :=
| Ret (a : A)
| Do (c : call) (k : answer c -> Prog A)
| Now (k : string -> Prog A)
| Printf (line : string) (k : Prog A).
Arguments Ret {A} a.
Arguments Do {A} c k.
Arguments Now {A} k.
Arguments Printf {A} line k.

Declare Scope prog_scope.
Delimit Scope prog_scope with prog.
Notation "x <- 'client' c ;; k" := (Do c (fun x => k))
  (at level 100, c at next level, right associativity) : prog_scope.
Notation "x <- 'now' ;; k" := (Now (fun x => k))
  (at level 100, right associativity) : prog_scope.
Notation "'log' l ;; k" := (Printf l k)
  (at level 100, l at next level, right associativity) : prog_scope.
Open Scope prog_scope.

(** A remote collaborator with internal state [W]. *)
Record Remote (W : Type) : Type := mkRemote {
  serve : forall c : call, W -> answer c * W;
  clock : W -> string * W
}.
Arguments mkRemote {W} _ _.
Arguments serve {W} _ _ _.
Arguments clock {W} _ _.

(** One remote call with the answer it received. *)
Definition exchange : Type := { c : call & answer c }.

Definition request (e : exchange) : call := projT1 e.

Definition failed (e : exchange) : bool :=
  match e with
  | existT _ c r =>
      match c return answer c -> bool with
      | JobExists _ => fun r => negb (is_ok r)
      | CreateJob _ _ => fun r => negb (is_ok r)
      | GetJob _ => fun r => negb (is_ok r)
      | GetJobConfig _ => fun r => negb (is_ok r)
      | UpdateJob _ _ => fun r => negb (is_ok r)
      | DeleteJob _ => fun r => negb (is_ok r)
      | Job_GetConfig _ => fun r => negb (is_ok r)
      | Job_GetLastCompletedBuild _ => fun r => negb (is_ok r)
      end r
  end.

Record Outcome (W A : Type) : Type := mkOutcome {
  value : A;
  world : W;
  calls : list exchange;
  logged : list string
}.
Arguments mkOutcome {W A} _ _ _ _.
Arguments value {W A} _.
Arguments world {W A} _.
Arguments calls {W A} _.
Arguments logged {W A} _.

Fixpoint run {W A : Type} (R : Remote W) (p : Prog A) (w : W) : Outcome W A :=
  match p with
  | Ret a => mkOutcome a w [] []
  | Do c k =>
      let (r, w') := serve R c w in
      let o := run R (k r) w' in
      mkOutcome (value o) (world o) (existT _ c r :: calls o) (logged o)
  | Now k =>
      let (t, w') := clock R w in
      run R (k t) w'
  | Printf line k =>
      let o := run R k w in
      mkOutcome (value o) (world o) (calls o) (line :: logged o)
  end.

(** The requests an outcome made, in order. *)
Definition requests {W A : Type} (o : Outcome W A) : list call :=
  map request (calls o).

(** ** ResourceReconciler: [resource_jenkins_pipeline.go] *)

Module Resource.

Record jenkinsPipelineResourceModel : Type := mkModel {
  ID : tfString;
  Name : tfString;
  Description : tfString;
  GroovyScript : tfString;
  LastUpdated : tfString
}.

Record CreateRequest : Type := mkCreateRequest {
  CreateRequest_Plan : tfsdkData jenkinsPipelineResourceModel
}.

Record ReadRequest : Type := mkReadRequest {
  ReadRequest_State : tfsdkData jenkinsPipelineResourceModel
}.

Record UpdateRequest : Type := mkUpdateRequest {
  UpdateRequest_Plan : tfsdkData jenkinsPipelineResourceModel;
  UpdateRequest_State : tfsdkData jenkinsPipelineResourceModel
}.

Record DeleteRequest : Type := mkDeleteRequest {
  DeleteRequest_State : tfsdkData jenkinsPipelineResourceModel
}.

Definition CreateResponse : Type := Response jenkinsPipelineResourceModel.
Definition ReadResponse : Type := Response jenkinsPipelineResourceModel.
Definition UpdateResponse : Type := Response jenkinsPipelineResourceModel.
Definition DeleteResponse : Type := Response jenkinsPipelineResourceModel.

(** [func (r *jenkinsPipelineResource) Create(ctx, req, resp)] *)
Definition Create (req : CreateRequest) (resp : CreateResponse) : Prog CreateResponse :=
  let '(diags, plan) := Get (CreateRequest_Plan req) in
  let resp := Append diags resp in
  if HasError (Diagnostics_ resp) then Ret resp else
  let jobName := ValueString (Name plan) in
  let description := ValueString (Description plan) in
  let groovyScript := ValueString (GroovyScript plan) in
  let configXML := buildPipelineConfigXML description groovyScript in
  r <- client JobExists jobName ;;
  match r with
  | Err err =>
      Ret (AddError "Client Error"
             (Sprintf "Failed to check if job '%s' exists: %s" [jobName; err]) resp)
  | Ok exists_ =>
      if exists_ then
        Ret (AddError "Job Already Exists"
               (Sprintf "Jenkins job '%s' already exists. Consider importing it or using a different name."
                  [jobName]) resp)
      else
        r <- client CreateJob configXML jobName ;;
        match r with
        | Err err =>
            Ret (AddError "Jenkins Job Creation Error"
                   (Sprintf "Failed to create Jenkins Pipeline job '%s': %s" [jobName; err]) resp)
        | Ok _ =>
            r <- client GetJob jobName ;;
            match r with
            | Err err =>
                Ret (AddError "Jenkins Job Read Error"
                       (Sprintf "Failed to read created Jenkins Pipeline job '%s': %s" [jobName; err])
                       resp)
            | Ok job =>
                t <- now ;;
                let plan :=
                  {| ID := StringValue (JobResponse_Name (Job_Raw job));
                     Name := StringValue (JobResponse_Name (Job_Raw job));
                     Description := StringValue (JobResponse_Description (Job_Raw job));
                     GroovyScript := StringValue groovyScript;
                     LastUpdated := StringValue t |} in
                let resp := State_Set plan resp in
                log Sprintf "[INFO] Jenkins Pipeline job '%s' created successfully." [jobName] ;;
                Ret resp
            end
        end
  end.

(** [func (r *jenkinsPipelineResource) Read(ctx, req, resp)] *)
Definition Read (req : ReadRequest) (resp : ReadResponse) : Prog ReadResponse :=
  let '(diags, state) := Get (ReadRequest_State req) in
  let resp := Append diags resp in
  if HasError (Diagnostics_ resp) then Ret resp else
  let jobName := ValueString (ID state) in
  r <- client JobExists jobName ;;
  match r with
  | Err err =>
      Ret (AddError "Client Error"
             (Sprintf "Failed to check if job '%s' exists during read: %s" [jobName; err]) resp)
  | Ok exists_ =>
      if negb exists_ then
        let resp := RemoveResource resp in
        log Sprintf "[INFO] Jenkins Pipeline job '%s' not found, removing from state." [jobName] ;;
        Ret resp
      else
        r <- client GetJobConfig jobName ;;
        match r with
        | Err err =>
            Ret (AddError "Jenkins Job Config Read Error"
                   (Sprintf "Failed to read Jenkins Pipeline job config for '%s': %s" [jobName; err])
                   resp)
        | Ok configXML =>
            let '(groovyScript, resp) :=
              match extractGroovyScriptFromXML configXML with
              | Err err =>
                  ("", AddError "Groovy Script Extraction Error"
                         (Sprintf "Failed to extract Groovy script from job '%s' config: %s"
                            [jobName; err]) resp)
              | Ok groovyScript => (groovyScript, resp)
              end in
            let '(description, resp) :=
              match extractDescriptionFromXML configXML with
              | Err err =>
                  ("", AddError "Description Extraction Error"
                         (Sprintf "Failed to extract description from job '%s' config: %s"
                            [jobName; err]) resp)
              | Ok description => (description, resp)
              end in
            t <- now ;;
            let state :=
              {| ID := ID state;
                 Name := StringValue jobName;
                 Description := StringValue description;
                 GroovyScript := StringValue groovyScript;
                 LastUpdated := StringValue t |} in
            let resp := State_Set state resp in
            log Sprintf "[INFO] Jenkins Pipeline job '%s' read successfully." [jobName] ;;
            Ret resp
        end
  end.

(** [func (r *jenkinsPipelineResource) Update(ctx, req, resp)] *)
Definition Update (req : UpdateRequest) (resp : UpdateResponse) : Prog UpdateResponse :=
  let '(diags, plan) := Get (UpdateRequest_Plan req) in
  let resp := Append diags resp in
  let '(diags, state) := Get (UpdateRequest_State req) in
  let resp := Append diags resp in
  if HasError (Diagnostics_ resp) then Ret resp else
  let jobName := ValueString (ID state) in
  let newDescription := ValueString (Description plan) in
  let newGroovyScript := ValueString (GroovyScript plan) in
  let updatedConfigXML := buildPipelineConfigXML newDescription newGroovyScript in
  r <- client UpdateJob jobName updatedConfigXML ;;
  match r with
  | Err err =>
      Ret (AddError "Jenkins Job Update Error"
             (Sprintf "Failed to update Jenkins Pipeline job '%s': %s" [jobName; err]) resp)
  | Ok _ =>
      r <- client GetJob jobName ;;
      match r with
      | Err err =>
          Ret (AddError "Jenkins Job Read Error After Update"
                 (Sprintf "Failed to read updated Jenkins Pipeline job '%s': %s" [jobName; err])
                 resp)
      | Ok job =>
          t <- now ;;
          let state :=
            {| ID := ID state;
               Name := Name state;
               Description := StringValue (JobResponse_Description (Job_Raw job));
               GroovyScript := StringValue newGroovyScript;
               LastUpdated := StringValue t |} in
          let resp := State_Set state resp in
          log Sprintf "[INFO] Jenkins Pipeline job '%s' updated successfully." [jobName] ;;
          Ret resp
      end
  end.

(** [func (r *jenkinsPipelineResource) Delete(ctx, req, resp)] *)
Definition Delete (req : DeleteRequest) (resp : DeleteResponse) : Prog DeleteResponse :=
  let '(diags, state) := Get (DeleteRequest_State req) in
  let resp := Append diags resp in
  if HasError (Diagnostics_ resp) then Ret resp else
  let jobName := ValueString (ID state) in
  r <- client JobExists jobName ;;
  match r with
  | Err err =>
      Ret (AddError "Client Error"
             (Sprintf "Failed to check if job '%s' exists before deletion: %s" [jobName; err])
             resp)
  | Ok exists_ =>
      if negb exists_ then
        log Sprintf "[INFO] Jenkins Pipeline job '%s' not found (already deleted)." [jobName] ;;
        Ret resp
      else
        r <- client DeleteJob jobName ;;
        match r with
        | Err err =>
            Ret (AddError "Jenkins Job Deletion Error"
                   (Sprintf "Failed to delete Jenkins Pipeline job '%s': %s" [jobName; err]) resp)
        | Ok _ =>
            log Sprintf "[INFO] Jenkins Pipeline job '%s' deleted successfully." [jobName] ;;
            Ret resp
        end
  end.

End Resource.

(** ** DataSourceReader: [datasource_jenkins_pipeline.go] *)

Module DataSource.

Record jenkinsPipelineDataSourceModel : Type := mkModel {
  ID : tfString;
  Name : tfString;
  Description : tfString;
  GroovyScript : tfString;
  LastBuildStatus : tfString;
  LastBuildDuration : tfInt64
}.

Record ReadRequest : Type := mkReadRequest {
  ReadRequest_Config : tfsdkData jenkinsPipelineDataSourceModel
}.

Definition ReadResponse : Type := Response jenkinsPipelineDataSourceModel.

(** [func (d *jenkinsPipelineDataSource) Read(ctx, req, resp)] *)
Definition Read (req : ReadRequest) (resp : ReadResponse) : Prog ReadResponse :=
  let '(diags, config) := Get (ReadRequest_Config req) in
  let resp := Append diags resp in
  if HasError (Diagnostics_ resp) then Ret resp else
  let jobName_ :=
    if negb (IsNull (ID config)) && negb (IsUnknown (ID config)) then
      Some (ValueString (ID config))
    else if negb (IsNull (Name config)) && negb (IsUnknown (Name config)) then
      Some (ValueString (Name config))
    else None in
  match jobName_ with
  | None =>
      Ret (AddError "Missing Identifier"
             "One of 'id' or 'name' must be provided to read the Jenkins Pipeline data source."
             resp)
  | Some jobName =>
      r <- client GetJob jobName ;;
      match r with
      | Err err =>
          if Contains err "404" || Contains err "no such job" then
            Ret (AddError "Jenkins Job Not Found"
                   (Sprintf "No Jenkins Pipeline job found with name/ID: '%s'. Error: %s"
                      [jobName; err]) resp)
          else
            Ret (AddError "Jenkins Job Read Error"
                   (Sprintf "Failed to get Jenkins job details for '%s': %s" [jobName; err]) resp)
      | Ok job =>
          r <- client Job_GetConfig job ;;
          match r with
          | Err err =>
              Ret (AddError "Jenkins Job Config Read Error"
                     (Sprintf "Failed to read Jenkins Pipeline job config for '%s': %s"
                        [jobName; err]) resp)
          | Ok configXML =>
              let '(groovyScript, resp) :=
                match extractGroovyScriptFromXML configXML with
                | Err err =>
                    ("", AddError "Groovy Script Extraction Error"
                           (Sprintf "Failed to extract Groovy script from job '%s' config: %s"
                              [jobName; err]) resp)
                | Ok groovyScript => (groovyScript, resp)
                end in
              let '(description, resp) :=
                match extractDescriptionFromXML configXML with
                | Err err =>
                    ("", AddError "Description Extraction Error"
                           (Sprintf "Failed to extract description from job '%s' config: %s"
                              [jobName; err]) resp)
                | Ok description => (description, resp)
                end in
              let finish (lastBuildStatus : string) (lastBuildDuration : Z) :=
                let config :=
                  {| ID := StringValue (JobResponse_Name (Job_Raw job));
                     Name := StringValue (JobResponse_Name (Job_Raw job));
                     Description := StringValue description;
                     GroovyScript := StringValue groovyScript;
                     LastBuildStatus := StringValue lastBuildStatus;
                     LastBuildDuration := Int64Value lastBuildDuration |} in
                let resp := State_Set config resp in
                log Sprintf "[INFO] Jenkins Pipeline data source for '%s' read successfully."
                      [jobName] ;;
                Ret resp in
              if Number (LastCompletedBuild (Job_Raw job)) >? 0 then
                r <- client Job_GetLastCompletedBuild job ;;
                match r with
                | Ok lastBuild =>
                    finish (Result (Build_Raw lastBuild))
                           (int64_of_float64 (Duration (Build_Raw lastBuild)))
                | Err err =>
                    log Sprintf "[WARN] Could not get last completed build details for '%s': %s"
                          [jobName; err] ;;
                    finish "" 0
                end
              else finish "" 0
          end
      end
  end.

End DataSource.

(** ** Auxiliary definitions for the proofs *)

(** The fixed parts of the configuration document around the two fields. *)
Definition docPrefix : string :=
  "<?xml version='1.1' encoding='UTF-8'?>" ++ nl ++
  "<flow-definition plugin=" ++ dq ++ "workflow-job@1254.v3f669a_b_a_083a_" ++ dq ++ ">" ++ nl ++
  "  ".

Definition docMiddle : string :=
  nl ++
  "  <keepDependencies>false</keepDependencies>" ++ nl ++
  "  <properties/>" ++ nl ++
  "  <definition class=" ++ dq ++ "org.jenkinsci.plugins.workflow.cps.CpsFlowDefinition" ++ dq ++
  " plugin=" ++ dq ++ "workflow-cps@2807.v39e1503c779e" ++ dq ++ ">" ++ nl ++
  "    ".

Definition docSuffix : string :=
  nl ++
  "    <sandbox>true</sandbox>" ++ nl ++
  "  </definition>" ++ nl ++
  "  <triggers/>" ++ nl ++
  "  <disabled>false</disabled>" ++ nl ++
  "</flow-definition>".

(** [substr] starts at no byte of [s] in [s ++ t]. *)
Fixpoint absent_before (s t substr : string) : bool :=
  match s with
  | EmptyString => true
  | String _ s' => negb (HasPrefix (s ++ t) substr) && absent_before s' t substr
  end.

(** No proper suffix of [substr] is a prefix of [t]: an instance of
    [substr] cannot begin before [t] and end inside it. *)
Definition no_straddle (t substr : string) : bool :=
  forallb (fun k => negb (HasPrefix t (drop k substr)))
          (seq 1 (String.length substr - 1)).

(** A collaborator without state that answers every call by [f] and reads
    the time [t] from the clock. *)
Definition scripted (f : forall c : call, answer c) (t : string) : Remote unit :=
  mkRemote (fun c w => (f c, w)) (fun w => (t, w)).

(** A collaborator that keeps the jobs it was given, newest first, as pairs
    of name and configuration document.  [CreateJob] stores a job whatever
    is already there. *)
Definition jobOf (name config : string) : Job :=
  mkJob (mkJobResponse name
           (match extractDescriptionFromXML config with Ok d => d | Err _ => "" end)
           (mkJobBuild 0)).

Fixpoint lookupJob (name : string) (jobs : list (string * string)) : option string :=
  match jobs with
  | [] => None
  | (n, config) :: rest => if String.eqb n name then Some config else lookupJob name rest
  end.

Definition inMemory_serve (c : call) (jobs : list (string * string))
  : answer c * list (string * string) :=
  match c return answer c * list (string * string) with
  | JobExists name =>
      (Ok (match lookupJob name jobs with Some _ => true | None => false end), jobs)
  | CreateJob config name => (Ok (jobOf name config), (name, config) :: jobs)
  | GetJob name =>
      (match lookupJob name jobs with
       | Some config => Ok (jobOf name config)
       | None => Err "404"
       end, jobs)
  | GetJobConfig name =>
      (match lookupJob name jobs with Some config => Ok config | None => Err "404" end, jobs)
  | UpdateJob name config =>
      (match lookupJob name jobs with
       | Some _ => Ok (jobOf name config)
       | None => Err "404"
       end,
       match lookupJob name jobs with Some _ => (name, config) :: jobs | None => jobs end)
  | DeleteJob name =>
      (match lookupJob name jobs with Some _ => Ok true | None => Err "404" end,
       filter (fun j => negb (String.eqb (fst j) name)) jobs)
  | Job_GetConfig job =>
      (match lookupJob (JobResponse_Name (Job_Raw job)) jobs with
       | Some config => Ok config
       | None => Err "404"
       end, jobs)
  | Job_GetLastCompletedBuild _ => (Err "404", jobs)
  end.

Definition inMemory : Remote (list (string * string)) :=
  mkRemote inMemory_serve (fun jobs => ("2024-01-01T00:00:00Z", jobs)).

(** The number of stored jobs called [name]. *)
Definition jobCount (name : string) (jobs : list (string * string)) : nat :=
  List.length (filter (fun j => String.eqb (fst j) name) jobs).

(** Canned answers.  [answers exists_ config job]: every call succeeds, the
    job exists or not as [exists_] says, and no build has completed;
    [unreachable msg]: every call fails with [msg]; [override p g f]
    answers the calls selected by [p] as [g] does and the others as [f]. *)
Definition answers (exists_ : bool) (config : string) (job : Job) (c : call) : answer c :=
  match c with
  | JobExists _ => Ok exists_
  | CreateJob _ _ => Ok job
  | GetJob _ => Ok job
  | GetJobConfig _ => Ok config
  | UpdateJob _ _ => Ok job
  | DeleteJob _ => Ok true
  | Job_GetConfig _ => Ok config
  | Job_GetLastCompletedBuild _ => Err "no completed build"
  end.

Definition unreachable (msg : string) (c : call) : answer c :=
  match c with
  | JobExists _ => Err msg
  | CreateJob _ _ => Err msg
  | GetJob _ => Err msg
  | GetJobConfig _ => Err msg
  | UpdateJob _ _ => Err msg
  | DeleteJob _ => Err msg
  | Job_GetConfig _ => Err msg
  | Job_GetLastCompletedBuild _ => Err msg
  end.

Definition override (p : call -> bool) (g f : forall c : call, answer c) (c : call)
  : answer c :=
  if p c then g c else f c.


Definition isCreateJob (c : call) : bool :=
  match c with CreateJob _ _ => true | _ => false end.

Definition isGetJobConfig (c : call) : bool :=
  match c with GetJobConfig _ => true | _ => false end.

Definition isDeleteJob (c : call) : bool :=
  match c with DeleteJob _ => true | _ => false end.

(** An input is supplied when it is neither null nor unknown. *)
Definition supplied (v : tfString) : bool := negb (IsNull v) && negb (IsUnknown v).

(** An operation that stops at a failed call: the response reports an
    error, the state container is left as it came in, and the failed call
    is the last one made. *)
Definition aborts_cleanly {W M : Type} (resp : Response M) (o : Outcome W (Response M))
  : Prop :=
  HasError (Diagnostics_ (value o)) = true /\
  State (value o) = State resp /\
  exists pre e, calls o = (pre ++ [e])%list /\ failed e = true /\ existsb failed pre = false.

(** Sample inputs. *)
Definition sampleTime : string := "2024-01-01T00:00:00Z".

Definition sampleJob : Job :=
  mkJob (mkJobResponse "nightly" "nightly build" (mkJobBuild 0)).

Definition sampleState : Resource.jenkinsPipelineResourceModel :=
  {| Resource.ID := StringValue "nightly";
     Resource.Name := StringValue "nightly";
     Resource.Description := StringValue "old text";
     Resource.GroovyScript := StringValue "echo old";
     Resource.LastUpdated := StringValue "2023-06-01T00:00:00Z" |}.

Definition samplePlan : Resource.jenkinsPipelineResourceModel :=
  {| Resource.ID := StringUnknown;
     Resource.Name := StringValue "renamed";
     Resource.Description := StringValue "nightly build";
     Resource.GroovyScript := StringValue "echo hi";
     Resource.LastUpdated := StringUnknown |}.

Definition sampleConfig (id name : tfString) : DataSource.jenkinsPipelineDataSourceModel :=
  {| DataSource.ID := id;
     DataSource.Name := name;
     DataSource.Description := StringNull;
     DataSource.GroovyScript := StringNull;
     DataSource.LastBuildStatus := StringNull;
     DataSource.LastBuildDuration := Int64Null |}.

(** A document with a description and no script section, and one with a
    script section and no description. *)
Definition descriptionOnly : string := "<description>nightly build</description>".
Definition scriptOnly : string := "<script><![CDATA[echo hi]]></script>".

(** The response after the two extraction steps shared by the resource
    read and the data-source read: each extractor that fails on
    [configXML] adds its error, the script's first. *)
Definition afterExtraction {M : Type} (jobName configXML : string) (resp : Response M)
  : Response M :=
  let resp :=
    match extractGroovyScriptFromXML configXML with
    | Err err =>
        AddError "Groovy Script Extraction Error"
          (Sprintf "Failed to extract Groovy script from job '%s' config: %s" [jobName; err])
          resp
    | Ok _ => resp
    end in
  match extractDescriptionFromXML configXML with
  | Err err =>
      AddError "Description Extraction Error"
        (Sprintf "Failed to extract description from job '%s' config: %s" [jobName; err])
        resp
  | Ok _ => resp
  end.

(** The text an extractor yields for the record: empty when it failed. *)
Definition orEmpty (r : result string) : string :=
  match r with Ok s => s | Err _ => "" end.

(** A job that reports a completed build, and canned answers that deliver
    the build [b] for it. *)
Definition builtJob : Job :=
  mkJob (mkJobResponse "nightly" "nightly build" (mkJobBuild 7)).

Definition sampleBuild : Build := mkBuild (mkBuildResponse "SUCCESS" 1500%float).

Definition isJobGetConfig (c : call) : bool :=
  match c with Job_GetConfig _ => true | _ => false end.

Definition answersBuilt (config : string) (job : Job) (b : Build) (c : call) : answer c :=
  match c with
  | Job_GetLastCompletedBuild _ => Ok b
  | c' => answers true config job c'
  end.

(** The calls that change nothing on the server. *)
Definition readOnly (c : call) : bool :=
  match c with
  | CreateJob _ _ | UpdateJob _ _ | DeleteJob _ => false
  | _ => true
  end.

Definition isGetJob (c : call) : bool :=
  match c with GetJob _ => true | _ => false end.

(** Diagnostics of a container that did not decode. *)
Definition decodeError : Diagnostics :=
  [mkDiagnostic SeverityError "Value Conversion Error" "cannot read the container"].

(** * Properties *)

(** ** Strings *)

Lemma append_assoc (a b c : string) : (a ++ b) ++ c = a ++ (b ++ c).
Proof. induction a as [|x a IH]; simpl; [reflexivity | now rewrite IH]. Qed.

Lemma length_append (a b : string) :
  String.length (a ++ b) = (String.length a + String.length b)%nat.
Proof. induction a as [|x a IH]; simpl; [reflexivity | now rewrite IH]. Qed.

Lemma len_nonneg (s : string) : 0 <= len s.
Proof. unfold len. lia. Qed.

Lemma drop_append (a b : string) : drop (String.length a) (a ++ b) = b.
Proof. induction a as [|x a IH]; simpl; [now destruct b | exact IH]. Qed.

Lemma take_append (a b : string) : take (String.length a) (a ++ b) = a.
Proof. induction a as [|x a IH]; simpl; [now destruct b | now rewrite IH]. Qed.

Lemma HasPrefix_append (p t : string) : HasPrefix (p ++ t) p = true.
Proof.
  induction p as [|c p IH]; simpl; [reflexivity|].
  now rewrite Ascii.eqb_refl, IH.
Qed.

(** An instance of [substr] at the head of [s ++ t] lies in [s] or runs
    over its end into [t]. *)
Lemma HasPrefix_append_inv (s t substr : string) :
  HasPrefix (s ++ t) substr = true ->
  HasPrefix s substr = true \/
  ((String.length s < String.length substr)%nat /\
   HasPrefix t (drop (String.length s) substr) = true).
Proof.
  revert substr. induction s as [|d s IH]; intros substr H.
  - destruct substr as [|c substr]; [now left|].
    right. split; [simpl; lia | exact H].
  - destruct substr as [|c substr]; [now left|].
    simpl in H. apply andb_true_iff in H. destruct H as [Hc H].
    destruct (IH _ H) as [Hs | [Hl Ht]].
    + left. simpl. now rewrite Hc, Hs.
    + right. split; [simpl; lia | exact Ht].
Qed.

Lemma Index_lower (s substr : string) : -1 <= Index s substr.
Proof.
  induction s as [|c s IH]; simpl.
  - destruct (HasPrefix "" substr); lia.
  - destruct (HasPrefix (String c s) substr); [lia|].
    destruct (Index s substr =? -1) eqn:E; lia.
Qed.

(** The slices the extractors take are in range. *)
Lemma Index_bounds (s substr : string) :
  Index s substr <> -1 ->
  0 <= Index s substr /\ Index s substr + len substr <= len s.
Proof.
  assert (P : forall s, HasPrefix s substr = true ->
                        (String.length substr <= String.length s)%nat).
  { clear s. induction substr as [|c p IH]; intros s H; simpl; [lia|].
    destruct s as [|d s]; simpl in H; [discriminate|].
    apply andb_true_iff in H. destruct H as [_ H]. apply IH in H. simpl. lia. }
  induction s as [|c s IH]; simpl; intros H.
  - destruct (HasPrefix "" substr) eqn:E; [|congruence].
    apply P in E. unfold len. simpl in *. lia.
  - destruct (HasPrefix (String c s) substr) eqn:E.
    + apply P in E. unfold len. simpl in *. lia.
    + destruct (Index s substr =? -1) eqn:E1; [congruence|].
      apply Z.eqb_neq in E1. specialize (IH E1). unfold len in *. simpl String.length.
      lia.
Qed.

Lemma length_drop (n : nat) (s : string) :
  (n <= String.length s)%nat -> String.length (drop n s) = (String.length s - n)%nat.
Proof.
  revert s. induction n as [|n IH]; intros s H; simpl.
  - lia.
  - destruct s as [|c s]; simpl in *; [lia|]. apply IH. lia.
Qed.

(** Both slices of an extractor, [xmlConfig[startIndex:]] and
    [xmlConfig[startIndex:endIndex]], have their bounds in range. *)
Lemma extractor_slices_in_range (xmlConfig start end_ : string) :
  Index xmlConfig start <> -1 ->
  let startIndex := Index xmlConfig start + len start in
  0 <= startIndex <= len xmlConfig /\
  (Index (slice_from xmlConfig startIndex) end_ <> -1 ->
   let endIndex := Index (slice_from xmlConfig startIndex) end_ + startIndex in
   startIndex <= endIndex <= len xmlConfig).
Proof.
  intros Hs startIndex.
  pose proof (Index_bounds xmlConfig start Hs) as [H0 H1].
  pose proof (len_nonneg start) as Hl.
  split; [subst startIndex; lia|].
  intros He endIndex.
  pose proof (Index_bounds _ end_ He) as [H2 H3].
  pose proof (len_nonneg end_) as Hl'.
  assert (Hd : len (slice_from xmlConfig startIndex) = len xmlConfig - startIndex).
  { unfold slice_from, len. rewrite length_drop; unfold len in *; lia. }
  subst endIndex. lia.
Qed.

Lemma Contains_false (s substr : string) :
  Contains s substr = false <-> Index s substr = -1.
Proof.
  unfold Contains. pose proof (Index_lower s substr).
  destruct (Index s substr >=? 0) eqn:E; split; intros; try congruence; lia.
Qed.

Lemma Index_absent_inv (c : ascii) (s substr : string) :
  Index (String c s) substr = -1 ->
  HasPrefix (String c s) substr = false /\ Index s substr = -1.
Proof.
  cbn [Index]. pose proof (Index_lower s substr).
  destruct (HasPrefix (String c s) substr); [discriminate|].
  destruct (Index s substr =? -1) eqn:E; [|lia].
  apply Z.eqb_eq in E. auto.
Qed.

(** The first instance: [substr] starts at no byte of [s] and [t] begins
    with it. *)
Lemma Index_first (s t substr : string) :
  absent_before s t substr = true ->
  HasPrefix t substr = true ->
  Index (s ++ t) substr = len s.
Proof.
  intros Ha Ht. induction s as [|c s IH].
  - simpl. destruct t; simpl in *; now rewrite Ht.
  - cbn [absent_before] in Ha. apply andb_true_iff in Ha. destruct Ha as [Hc Ha].
    apply negb_true_iff in Hc. specialize (IH Ha).
    change (String c s ++ t) with (String c (s ++ t)) in *.
    cbn [Index]. rewrite Hc, IH.
    pose proof (len_nonneg s).
    destruct (len s =? -1) eqn:E; [lia|].
    unfold len. simpl String.length. lia.
Qed.

Lemma absent_before_append (a b t substr : string) :
  absent_before a (b ++ t) substr = true ->
  absent_before b t substr = true ->
  absent_before (a ++ b) t substr = true.
Proof.
  intros Ha Hb. induction a as [|c a IH]; [exact Hb|].
  cbn [absent_before] in Ha. apply andb_true_iff in Ha. destruct Ha as [Hc Ha].
  change (String c a ++ b) with (String c (a ++ b)).
  cbn [absent_before]. rewrite (IH Ha), andb_true_r.
  change (String c (a ++ b) ++ t) with ((String c a ++ b) ++ t).
  now rewrite append_assoc.
Qed.

Lemma no_straddle_spec (t substr : string) (k : nat) :
  no_straddle t substr = true ->
  (0 < k < String.length substr)%nat ->
  HasPrefix t (drop k substr) = false.
Proof.
  unfold no_straddle. intros H Hk.
  rewrite forallb_forall in H.
  apply negb_true_iff, H, in_seq. lia.
Qed.

(** A string that does not contain [substr], followed by a text no instance
    can run into. *)
Lemma absent_before_of_Index (s t substr : string) :
  Index s substr = -1 ->
  no_straddle t substr = true ->
  absent_before s t substr = true.
Proof.
  intros Hi Hn. induction s as [|c s IH]; [reflexivity|].
  apply Index_absent_inv in Hi. destruct Hi as [Hp Hi].
  cbn [absent_before]. rewrite (IH Hi), andb_true_r.
  apply negb_true_iff.
  destruct (HasPrefix (String c s ++ t) substr) eqn:E; [|reflexivity].
  apply HasPrefix_append_inv in E. destruct E as [E | [Hl E]]; [congruence|].
  rewrite (no_straddle_spec t substr (String.length (String c s))) in E;
    [discriminate | exact Hn | simpl in *; lia].
Qed.

(** The two slices of an extractor, when the opening delimiter was found
    after [a] and the closing one after [body]. *)
Lemma slice_from_between (a start body rest : string) :
  slice_from (a ++ start ++ body ++ rest) (len a + len start) = body ++ rest.
Proof.
  unfold slice_from, len. rewrite <- Nat2Z.inj_add, Nat2Z.id, <- length_append.
  rewrite <- append_assoc. apply drop_append.
Qed.

Lemma slice_between (a start body rest : string) :
  slice (a ++ start ++ body ++ rest) (len a + len start) (len body + (len a + len start))
  = body.
Proof.
  unfold slice. fold (slice_from (a ++ start ++ body ++ rest) (len a + len start)).
  rewrite slice_from_between.
  replace (len body + (len a + len start) - (len a + len start)) with (len body) by lia.
  unfold len. rewrite Nat2Z.id. apply take_append.
Qed.

(** ** ConfigCodec *)

(** The document is the fixed text with the two fields copied in. *)
Lemma buildPipelineConfigXML_shape (description groovyScript : string) :
  buildPipelineConfigXML description groovyScript =
  docPrefix ++ descStart ++ description ++ descEnd ++ docMiddle
    ++ scriptStart ++ groovyScript ++ scriptEnd ++ docSuffix.
Proof. reflexivity. Qed.

(** The description comes back whenever it does not contain its closing
    delimiter; the script plays no part. *)
Lemma extractDescription_build (description groovyScript : string) :
  Contains description descEnd = false ->
  extractDescriptionFromXML (buildPipelineConfigXML description groovyScript)
  = Ok description.
Proof.
  intros Hd. apply Contains_false in Hd.
  rewrite buildPipelineConfigXML_shape.
  set (rest := descEnd ++ docMiddle ++ scriptStart ++ groovyScript ++ scriptEnd ++ docSuffix).
  unfold extractDescriptionFromXML.
  assert (H1 : Index (docPrefix ++ descStart ++ description ++ rest) descStart
               = len docPrefix).
  { apply Index_first; [vm_compute; reflexivity | apply HasPrefix_append]. }
  rewrite H1. cbv zeta.
  pose proof (len_nonneg docPrefix) as Hp.
  destruct (len docPrefix =? -1) eqn:E; [lia|]. clear E.
  rewrite slice_from_between.
  assert (H2 : Index (description ++ rest) descEnd = len description).
  { apply Index_first; [|apply HasPrefix_append].
    apply absent_before_of_Index; [exact Hd | vm_compute; reflexivity]. }
  rewrite H2.
  pose proof (len_nonneg description) as Hl.
  destruct (len description =? -1) eqn:E; [lia|]. clear E.
  now rewrite slice_between.
Qed.

(** The script comes back when it does not contain its closing delimiter
    and the description does not contain the opening delimiter of the
    script section. *)
Lemma extractGroovyScript_build (description groovyScript : string) :
  Contains groovyScript scriptEnd = false ->
  Contains description scriptStart = false ->
  extractGroovyScriptFromXML (buildPipelineConfigXML description groovyScript)
  = Ok groovyScript.
Proof.
  intros Hs Hd. apply Contains_false in Hs. apply Contains_false in Hd.
  rewrite buildPipelineConfigXML_shape.
  set (rest := scriptEnd ++ docSuffix).
  set (a := (docPrefix ++ descStart) ++ description ++ descEnd ++ docMiddle).
  replace (docPrefix ++ descStart ++ description ++ descEnd ++ docMiddle
             ++ scriptStart ++ groovyScript ++ rest)
    with (a ++ scriptStart ++ groovyScript ++ rest)
    by (unfold a; now rewrite !append_assoc).
  unfold extractGroovyScriptFromXML.
  assert (H1 : Index (a ++ scriptStart ++ groovyScript ++ rest) scriptStart = len a).
  { apply Index_first; [|apply HasPrefix_append].
    unfold a. apply absent_before_append; [vm_compute; reflexivity|].
    apply absent_before_append; [|vm_compute; reflexivity].
    apply absent_before_of_Index; [exact Hd | vm_compute; reflexivity]. }
  rewrite H1. cbv zeta.
  pose proof (len_nonneg a) as Hp.
  destruct (len a =? -1) eqn:E; [lia|]. clear E.
  rewrite slice_from_between.
  assert (H2 : Index (groovyScript ++ rest) scriptEnd = len groovyScript).
  { apply Index_first; [|apply HasPrefix_append].
    apply absent_before_of_Index; [exact Hs | vm_compute; reflexivity]. }
  rewrite H2.
  pose proof (len_nonneg groovyScript) as Hl.
  destruct (len groovyScript =? -1) eqn:E; [lia|]. clear E.
  now rewrite slice_between.
Qed.

(** C1, as amended.  If the script does not contain [scriptEnd], and the
    description contains neither [descEnd] nor the opening delimiter
    [scriptStart] of the script section, both extractors applied to
    [buildPipelineConfigXML description groovyScript] return the original
    values. *)
Theorem codec_round_trip (description groovyScript : string) :
  Contains groovyScript scriptEnd = false ->
  Contains description descEnd = false ->
  Contains description scriptStart = false ->
  extractGroovyScriptFromXML (buildPipelineConfigXML description groovyScript)
    = Ok groovyScript /\
  extractDescriptionFromXML (buildPipelineConfigXML description groovyScript)
    = Ok description.
Proof.
  intros Hs Hd Hd'. split.
  - now apply extractGroovyScript_build.
  - now apply extractDescription_build.
Qed.

Lemma codec_round_trip_witness :
  Contains "echo hi" scriptEnd = false /\
  Contains "nightly build" descEnd = false /\
  Contains "nightly build" scriptStart = false /\
  extractGroovyScriptFromXML (buildPipelineConfigXML "nightly build" "echo hi")
    = Ok "echo hi" /\
  extractDescriptionFromXML (buildPipelineConfigXML "nightly build" "echo hi")
    = Ok "nightly build".
Proof.
  split; [reflexivity|]. split; [reflexivity|]. split; [reflexivity|].
  apply (codec_round_trip "nightly build" "echo hi"); reflexivity.
Defined.

(** C1 as stated fails: a description that holds the opening delimiter of
    the script section contains neither closing delimiter, its document
    decodes, and the script that comes back is the text from the
    description's end up to the real script, not the script that went in. *)
Lemma codec_round_trip_counterexample :
  Contains "echo hi" scriptEnd = false /\
  Contains "<script><![CDATA[" descEnd = false /\
  extractGroovyScriptFromXML (buildPipelineConfigXML "<script><![CDATA[" "echo hi")
    = Ok (descEnd ++ docMiddle ++ scriptStart ++ "echo hi") /\
  extractGroovyScriptFromXML (buildPipelineConfigXML "<script><![CDATA[" "echo hi")
    <> Ok "echo hi".
Proof.
  split; [reflexivity|]. split; [reflexivity|]. split; [reflexivity|].
  vm_compute. discriminate.
Qed.

(** ** Diagnostics *)

Lemma Diagnostic_Equal_eq (a b : Diagnostic) : Diagnostic_Equal a b = true -> a = b.
Proof.
  destruct a as [sa ma da], b as [sb mb db]. unfold Diagnostic_Equal. simpl.
  intros H. apply andb_true_iff in H. destruct H as [H Hd].
  apply andb_true_iff in H. destruct H as [Hs Hm].
  apply String.eqb_eq in Hm, Hd. subst.
  destruct sa, sb; simpl in Hs; congruence.
Qed.

Lemma Diagnostics_Contains_In (diags : Diagnostics) (d : Diagnostic) :
  Diagnostics_Contains diags d = true -> In d diags.
Proof.
  unfold Diagnostics_Contains. intros H. apply existsb_exists in H.
  destruct H as [x [Hx He]]. apply Diagnostic_Equal_eq in He. now subst.
Qed.

Lemma HasError_In (diags : Diagnostics) (d : Diagnostic) :
  In d diags -> isError d = true -> HasError diags = true.
Proof. intros Hi He. apply existsb_exists. eauto. Qed.

Lemma In_AddError (summary detail : string) (diags : Diagnostics) :
  In (mkDiagnostic SeverityError summary detail)
     (Diagnostics_AddError summary detail diags).
Proof.
  unfold Diagnostics_AddError. simpl.
  destruct (Diagnostics_Contains diags _) eqn:E.
  - now apply Diagnostics_Contains_In.
  - apply in_or_app. right. now left.
Qed.

Lemma HasError_AddError (summary detail : string) (diags : Diagnostics) :
  HasError (Diagnostics_AddError summary detail diags) = true.
Proof. eapply HasError_In; [apply In_AddError | reflexivity]. Qed.

Lemma AddError_inv (summary detail : string) (diags : Diagnostics) (d : Diagnostic) :
  In d (Diagnostics_AddError summary detail diags) ->
  In d diags \/ d = mkDiagnostic SeverityError summary detail.
Proof.
  unfold Diagnostics_AddError. simpl.
  destruct (Diagnostics_Contains diags _); [now left|].
  intros H. apply in_app_or in H. destruct H as [H | [H | []]]; auto.
Qed.

Lemma AddError_mono (summary detail : string) (diags : Diagnostics) (d : Diagnostic) :
  In d diags -> In d (Diagnostics_AddError summary detail diags).
Proof.
  intros H. unfold Diagnostics_AddError. simpl.
  destruct (Diagnostics_Contains diags _); [exact H|].
  apply in_or_app. now left.
Qed.

(** ** Running an operation *)

Lemma run_Do {W A : Type} (R : Remote W) (c : call) (k : answer c -> Prog A)
      (w w' : W) (r : answer c) :
  serve R c w = (r, w') ->
  run R (Do c k) w =
  mkOutcome (value (run R (k r) w')) (world (run R (k r) w'))
            (existT _ c r :: calls (run R (k r) w')) (logged (run R (k r) w')).
Proof. intros H. simpl. now rewrite H. Qed.

Lemma run_Now {W A : Type} (R : Remote W) (k : string -> Prog A) (w w' : W) (t : string) :
  clock R w = (t, w') -> run R (Now k) w = run R (k t) w'.
Proof. intros H. simpl. now rewrite H. Qed.

(** Answer the next call of the program under [run] by a hypothesis of the
    context, or by cases when there is none. *)
Ltac answer_call :=
  match goal with
  | H : serve ?R ?c ?w = _ |- context [run ?R (Do ?c _) ?w] =>
      rewrite (run_Do R c _ w _ _ H)
  | H : clock ?R ?w = _ |- context [run ?R (Now _) ?w] =>
      rewrite (run_Now R _ w _ _ H)
  end.

Ltac split_call :=
  match goal with
  | |- context [run ?R (Do ?c ?k) ?w] =>
      let r := fresh "r" in
      let w' := fresh "w" in
      let E := fresh "E" in
      destruct (serve R c w) as [r w'] eqn:E;
      rewrite (run_Do R c _ w w' r E);
      simpl in r; destruct r
  | |- context [run ?R (Now ?k) ?w] =>
      let t := fresh "t" in
      let w' := fresh "w" in
      let E := fresh "E" in
      destruct (clock R w) as [t w'] eqn:E;
      rewrite (run_Now R _ w w' t E)
  end.

(** ** ResourceReconciler *)

Section Reconciler.
Import Resource.
Context {W : Type} (R : Remote W).

(** The outcome of a read whose job is gone. *)
Lemma Read_job_absent (w w1 : W) (diags : Diagnostics)
      (state : jenkinsPipelineResourceModel) (resp : ReadResponse) :
  HasError (Diagnostics_ (Append diags resp)) = false ->
  serve R (JobExists (ValueString (ID state))) w = (Ok false, w1) ->
  run R (Read (mkReadRequest (mkData (diags, state))) resp) w =
  mkOutcome (RemoveResource (Append diags resp)) w1
            [existT _ (JobExists (ValueString (ID state))) (Ok false)]
            [Sprintf "[INFO] Jenkins Pipeline job '%s' not found, removing from state."
               [ValueString (ID state)]].
Proof.
  intros Hd He. unfold Read. cbn [Get ReadRequest_State]. rewrite Hd.
  answer_call. reflexivity.
Qed.

(** C3.  A read whose existence check answers false drops the resource
    from the state, adds no diagnostic (so raises no error), and makes no
    remote call after the existence check. *)
Theorem Read_drift_removal (w w1 : W) (diags : Diagnostics)
        (state : jenkinsPipelineResourceModel) (resp : ReadResponse) :
  HasError (Diagnostics_ (Append diags resp)) = false ->
  serve R (JobExists (ValueString (ID state))) w = (Ok false, w1) ->
  let o := run R (Read (mkReadRequest (mkData (diags, state))) resp) w in
  State (value o) = None /\
  Diagnostics_ (value o) = Diagnostics_ (Append diags resp) /\
  HasError (Diagnostics_ (value o)) = false /\
  requests o = [JobExists (ValueString (ID state))].
Proof.
  intros Hd He o. subst o. rewrite (Read_job_absent w w1 diags state resp Hd He).
  cbn [value calls requests map request projT1 RemoveResource State Diagnostics_].
  repeat split; try reflexivity. exact Hd.
Qed.

(** The outcome of a read that fetched the configuration document. *)
Lemma Read_fetched (w w1 w2 w3 : W) (diags : Diagnostics)
      (state : jenkinsPipelineResourceModel) (resp : ReadResponse)
      (configXML t : string) :
  HasError (Diagnostics_ (Append diags resp)) = false ->
  serve R (JobExists (ValueString (ID state))) w = (Ok true, w1) ->
  serve R (GetJobConfig (ValueString (ID state))) w1 = (Ok configXML, w2) ->
  clock R w2 = (t, w3) ->
  let jobName := ValueString (ID state) in
  let resp1 :=
    match extractGroovyScriptFromXML configXML with
    | Err err =>
        AddError "Groovy Script Extraction Error"
          (Sprintf "Failed to extract Groovy script from job '%s' config: %s" [jobName; err])
          (Append diags resp)
    | Ok _ => Append diags resp
    end in
  let resp2 :=
    match extractDescriptionFromXML configXML with
    | Err err =>
        AddError "Description Extraction Error"
          (Sprintf "Failed to extract description from job '%s' config: %s" [jobName; err])
          resp1
    | Ok _ => resp1
    end in
  let o := run R (Read (mkReadRequest (mkData (diags, state))) resp) w in
  value o =
    State_Set {| ID := ID state;
                 Name := StringValue jobName;
                 Description :=
                   StringValue (match extractDescriptionFromXML configXML with
                                | Ok d => d | Err _ => "" end);
                 GroovyScript :=
                   StringValue (match extractGroovyScriptFromXML configXML with
                                | Ok g => g | Err _ => "" end);
                 LastUpdated := StringValue t |} resp2 /\
  requests o = [JobExists jobName; GetJobConfig jobName].
Proof.
  intros Hd He Hc Ht jobName resp1 resp2 o. subst o resp2 resp1 jobName.
  unfold Read. cbn [Get ReadRequest_State]. rewrite Hd.
  answer_call. cbn [negb]. answer_call.
  destruct (extractGroovyScriptFromXML configXML);
    destruct (extractDescriptionFromXML configXML);
    answer_call; split; reflexivity.
Qed.

(** C2, as amended.  When the existence check and the configuration fetch
    succeed, the read runs to its end whatever the extractors return: the
    record is written with the restamped [LastUpdated], a field whose
    extraction failed is the empty string, the other field is the extracted
    text, and each failed extraction leaves a diagnostic of severity error
    in the response, so that the response reports an error. *)
Theorem Read_partial_decode (w w1 w2 w3 : W) (diags : Diagnostics)
        (state : jenkinsPipelineResourceModel) (resp : ReadResponse)
        (configXML t : string) :
  HasError (Diagnostics_ (Append diags resp)) = false ->
  serve R (JobExists (ValueString (ID state))) w = (Ok true, w1) ->
  serve R (GetJobConfig (ValueString (ID state))) w1 = (Ok configXML, w2) ->
  clock R w2 = (t, w3) ->
  let jobName := ValueString (ID state) in
  let o := run R (Read (mkReadRequest (mkData (diags, state))) resp) w in
  State (value o) =
    Some {| ID := ID state;
            Name := StringValue jobName;
            Description :=
              StringValue (match extractDescriptionFromXML configXML with
                           | Ok d => d | Err _ => "" end);
            GroovyScript :=
              StringValue (match extractGroovyScriptFromXML configXML with
                           | Ok g => g | Err _ => "" end);
            LastUpdated := StringValue t |} /\
  (forall err, extractGroovyScriptFromXML configXML = Err err ->
     In (mkDiagnostic SeverityError "Groovy Script Extraction Error"
           (Sprintf "Failed to extract Groovy script from job '%s' config: %s" [jobName; err]))
        (Diagnostics_ (value o)) /\
     HasError (Diagnostics_ (value o)) = true) /\
  (forall err, extractDescriptionFromXML configXML = Err err ->
     In (mkDiagnostic SeverityError "Description Extraction Error"
           (Sprintf "Failed to extract description from job '%s' config: %s" [jobName; err]))
        (Diagnostics_ (value o)) /\
     HasError (Diagnostics_ (value o)) = true).
Proof.
  intros Hd He Hc Ht jobName o.
  destruct (Read_fetched w w1 w2 w3 diags state resp configXML t Hd He Hc Ht) as [Hv _].
  fold jobName in Hv. fold o in Hv. rewrite Hv. clear Hv.
  split; [reflexivity|]. split; intros err Hx; rewrite Hx.
  - assert (Hi : In (mkDiagnostic SeverityError "Groovy Script Extraction Error"
                       (Sprintf "Failed to extract Groovy script from job '%s' config: %s"
                          [jobName; err]))
                    (Diagnostics_
                       (match extractDescriptionFromXML configXML with
                        | Err e =>
                            AddError "Description Extraction Error"
                              (Sprintf "Failed to extract description from job '%s' config: %s"
                                 [jobName; e])
                              (AddError "Groovy Script Extraction Error"
                                 (Sprintf "Failed to extract Groovy script from job '%s' config: %s"
                                    [jobName; err]) (Append diags resp))
                        | Ok _ =>
                            AddError "Groovy Script Extraction Error"
                              (Sprintf "Failed to extract Groovy script from job '%s' config: %s"
                                 [jobName; err]) (Append diags resp)
                        end))).
    { destruct (extractDescriptionFromXML configXML); cbn [AddError Diagnostics_];
        [|apply AddError_mono]; apply In_AddError. }
    cbn [State_Set Append Diagnostics_ Diagnostics_Append].
    split; [exact Hi|]. eapply HasError_In; [exact Hi | reflexivity].
  - cbn [State_Set Append Diagnostics_ Diagnostics_Append AddError].
    split; [apply In_AddError | apply HasError_AddError].
Qed.

(** The outcome of a create whose job is already there. *)
Lemma Create_job_present (w w1 : W) (diags : Diagnostics)
      (plan : jenkinsPipelineResourceModel) (resp : CreateResponse) :
  HasError (Diagnostics_ (Append diags resp)) = false ->
  serve R (JobExists (ValueString (Name plan))) w = (Ok true, w1) ->
  run R (Create (mkCreateRequest (mkData (diags, plan))) resp) w =
  mkOutcome
    (AddError "Job Already Exists"
       (Sprintf "Jenkins job '%s' already exists. Consider importing it or using a different name."
          [ValueString (Name plan)]) (Append diags resp))
    w1 [existT _ (JobExists (ValueString (Name plan))) (Ok true)] [].
Proof.
  intros Hd He. unfold Create. cbn [Get CreateRequest_Plan]. rewrite Hd.
  answer_call. reflexivity.
Qed.

(** C5.  A create whose existence check answers true fails with the
    diagnostic "Job Already Exists", leaves the state container as it came
    in, and makes the existence check its only remote call: the create
    endpoint is not called and the collaborator is left in the world the
    existence check returned. *)
Theorem Create_already_exists (w w1 : W) (diags : Diagnostics)
        (plan : jenkinsPipelineResourceModel) (resp : CreateResponse) :
  HasError (Diagnostics_ (Append diags resp)) = false ->
  serve R (JobExists (ValueString (Name plan))) w = (Ok true, w1) ->
  let jobName := ValueString (Name plan) in
  let o := run R (Create (mkCreateRequest (mkData (diags, plan))) resp) w in
  In (mkDiagnostic SeverityError "Job Already Exists"
        (Sprintf "Jenkins job '%s' already exists. Consider importing it or using a different name."
           [jobName]))
     (Diagnostics_ (value o)) /\
  HasError (Diagnostics_ (value o)) = true /\
  State (value o) = State resp /\
  requests o = [JobExists jobName] /\
  existsb isCreateJob (requests o) = false /\
  world o = w1.
Proof.
  intros Hd He jobName o. subst o jobName.
  rewrite (Create_job_present w w1 diags plan resp Hd He).
  cbn [value calls world requests map request projT1 AddError State Diagnostics_].
  split; [apply In_AddError|]. split; [apply HasError_AddError|].
  repeat split; reflexivity.
Qed.

(** C6.  A delete whose existence check answers false adds no diagnostic
    and makes no call after the existence check; when the check answers
    true the delete endpoint is called, and an error it returns is
    reported by the diagnostic "Jenkins Job Deletion Error". *)
Theorem Delete_idempotent (w w1 : W) (exists_ : bool) (diags : Diagnostics)
        (state : jenkinsPipelineResourceModel) (resp : DeleteResponse) :
  HasError (Diagnostics_ (Append diags resp)) = false ->
  serve R (JobExists (ValueString (ID state))) w = (Ok exists_, w1) ->
  let jobName := ValueString (ID state) in
  let o := run R (Delete (mkDeleteRequest (mkData (diags, state))) resp) w in
  (exists_ = false ->
     value o = Append diags resp /\
     HasError (Diagnostics_ (value o)) = false /\
     requests o = [JobExists jobName] /\
     existsb isDeleteJob (requests o) = false) /\
  (exists_ = true ->
     requests o = [JobExists jobName; DeleteJob jobName] /\
     (forall err, fst (serve R (DeleteJob jobName) w1) = Err err ->
        In (mkDiagnostic SeverityError "Jenkins Job Deletion Error"
              (Sprintf "Failed to delete Jenkins Pipeline job '%s': %s" [jobName; err]))
           (Diagnostics_ (value o)) /\
        HasError (Diagnostics_ (value o)) = true) /\
     (forall ok, fst (serve R (DeleteJob jobName) w1) = Ok ok ->
        value o = Append diags resp)).
Proof.
  intros Hd He jobName o. subst o jobName.
  unfold Delete. cbn [Get DeleteRequest_State]. rewrite Hd.
  answer_call. split; intros ->; cbn [negb].
  - cbn [run value calls requests map request projT1 existsb isDeleteJob orb].
    repeat split; try reflexivity. exact Hd.
  - split_call; cbn [run value calls requests map request projT1 fst].
    + split; [reflexivity|]. split; [intros err Hx; discriminate Hx | reflexivity].
    + split; [reflexivity|]. split; [|intros ok Hx; discriminate Hx].
      intros err Hx. injection Hx as ->.
      split; [apply In_AddError | apply HasError_AddError].
Qed.

(** The outcome of an update whose two remote calls succeed. *)
Lemma Update_applied (w w1 w2 w3 : W) (pdiags sdiags : Diagnostics)
      (plan state : jenkinsPipelineResourceModel) (resp : UpdateResponse)
      (updated job : Job) (t : string) :
  let jobName := ValueString (ID state) in
  let updatedConfigXML :=
    buildPipelineConfigXML (ValueString (Description plan))
                           (ValueString (GroovyScript plan)) in
  HasError (Diagnostics_ (Append sdiags (Append pdiags resp))) = false ->
  serve R (UpdateJob jobName updatedConfigXML) w = (Ok updated, w1) ->
  serve R (GetJob jobName) w1 = (Ok job, w2) ->
  clock R w2 = (t, w3) ->
  run R (Update (mkUpdateRequest (mkData (pdiags, plan)) (mkData (sdiags, state))) resp) w =
  mkOutcome
    (State_Set {| ID := ID state;
                  Name := Name state;
                  Description := StringValue (JobResponse_Description (Job_Raw job));
                  GroovyScript := StringValue (ValueString (GroovyScript plan));
                  LastUpdated := StringValue t |}
       (Append sdiags (Append pdiags resp)))
    w3
    [existT _ (UpdateJob jobName updatedConfigXML) (Ok updated);
     existT _ (GetJob jobName) (Ok job)]
    [Sprintf "[INFO] Jenkins Pipeline job '%s' updated successfully." [jobName]].
Proof.
  intros jobName updatedConfigXML Hd Hu Hg Ht. subst jobName updatedConfigXML.
  unfold Update. cbn [Get UpdateRequest_Plan UpdateRequest_State]. rewrite Hd.
  answer_call. answer_call. answer_call. reflexivity.
Qed.

(** The plan's name plays no part in an update. *)
Lemma Update_ignores_plan_name (w : W) (pdiags sdiags : Diagnostics)
      (plan state : jenkinsPipelineResourceModel) (resp : UpdateResponse)
      (name' : tfString) :
  run R (Update (mkUpdateRequest
                   (mkData (pdiags, {| ID := ID plan; Name := name';
                                       Description := Description plan;
                                       GroovyScript := GroovyScript plan;
                                       LastUpdated := LastUpdated plan |}))
                   (mkData (sdiags, state))) resp) w =
  run R (Update (mkUpdateRequest (mkData (pdiags, plan)) (mkData (sdiags, state))) resp) w.
Proof. reflexivity. Qed.

(** Every remote call of an update names the id of the stored state. *)
Lemma Update_requests (w : W) (pdiags sdiags : Diagnostics)
      (plan state : jenkinsPipelineResourceModel) (resp : UpdateResponse) :
  let jobName := ValueString (ID state) in
  let updatedConfigXML :=
    buildPipelineConfigXML (ValueString (Description plan))
                           (ValueString (GroovyScript plan)) in
  let o := run R (Update (mkUpdateRequest (mkData (pdiags, plan)) (mkData (sdiags, state)))
                    resp) w in
  forall c, In c (requests o) ->
            c = UpdateJob jobName updatedConfigXML \/ c = GetJob jobName.
Proof.
  intros jobName updatedConfigXML o c. subst o jobName updatedConfigXML.
  unfold Update. cbn [Get UpdateRequest_Plan UpdateRequest_State].
  destruct (HasError (Diagnostics_ (Append sdiags (Append pdiags resp)))).
  - cbn [run calls requests map In]. intros [].
  - split_call; [split_call; [split_call|]|];
      cbn [run calls requests map request projT1 In];
      intuition auto.
Qed.

(** C8.  Every remote call of an update addresses the job by the id of
    the stored state, and the outcome is the same whatever the plan's name
    is; when both calls succeed the record written has the description the
    server reported, the script of the plan, a restamped [LastUpdated],
    and the id and name of the stored state. *)
Theorem Update_by_state_id (w : W) (pdiags sdiags : Diagnostics)
        (plan state : jenkinsPipelineResourceModel) (resp : UpdateResponse) :
  let jobName := ValueString (ID state) in
  let updatedConfigXML :=
    buildPipelineConfigXML (ValueString (Description plan))
                           (ValueString (GroovyScript plan)) in
  let o := run R (Update (mkUpdateRequest (mkData (pdiags, plan)) (mkData (sdiags, state)))
                    resp) w in
  (forall c, In c (requests o) ->
             c = UpdateJob jobName updatedConfigXML \/ c = GetJob jobName) /\
  (forall name' : tfString,
     run R (Update (mkUpdateRequest
                      (mkData (pdiags, {| ID := ID plan; Name := name';
                                          Description := Description plan;
                                          GroovyScript := GroovyScript plan;
                                          LastUpdated := LastUpdated plan |}))
                      (mkData (sdiags, state))) resp) w = o) /\
  (forall (updated job : Job) (t : string) (w1 w2 w3 : W),
     HasError (Diagnostics_ (Append sdiags (Append pdiags resp))) = false ->
     serve R (UpdateJob jobName updatedConfigXML) w = (Ok updated, w1) ->
     serve R (GetJob jobName) w1 = (Ok job, w2) ->
     clock R w2 = (t, w3) ->
     requests o = [UpdateJob jobName updatedConfigXML; GetJob jobName] /\
     State (value o) =
       Some {| ID := ID state;
               Name := Name state;
               Description := StringValue (JobResponse_Description (Job_Raw job));
               GroovyScript := StringValue (ValueString (GroovyScript plan));
               LastUpdated := StringValue t |} /\
     Diagnostics_ (value o) = Diagnostics_ (Append sdiags (Append pdiags resp))).
Proof.
  intros jobName updatedConfigXML o. split; [|split].
  - apply Update_requests.
  - intros name'. apply Update_ignores_plan_name.
  - intros updated job t w1 w2 w3 Hd Hu Hg Ht. subst o.
    rewrite (Update_applied w w1 w2 w3 pdiags sdiags plan state resp updated job t
               Hd Hu Hg Ht).
    repeat split; reflexivity.
Qed.

(** *** No partial writes *)

(** Close a leaf of the case analysis over the answers: either no call
    failed, or the operation stopped at the failed call. *)
Ltac stopped_at_failure :=
  cbn [run value calls existsb failed is_ok negb orb app]; intros Hf;
  first
    [ discriminate Hf
    | split; [apply HasError_AddError|];
      split; [reflexivity|];
      (exists [] + eexists [_] + eexists [_; _]);
      eexists; split; [reflexivity|]; split; reflexivity ].

Lemma Create_aborts_cleanly (w : W) (req : CreateRequest) (resp : CreateResponse) :
  let o := run R (Create req resp) w in
  existsb failed (calls o) = true -> aborts_cleanly resp o.
Proof.
  intros o. subst o. unfold aborts_cleanly, Create.
  destruct (Get (CreateRequest_Plan req)) as [diags plan].
  destruct (HasError (Diagnostics_ (Append diags resp))); [stopped_at_failure|].
  split_call; [|stopped_at_failure].
  destruct t; [stopped_at_failure|].
  split_call; [|stopped_at_failure].
  split_call; [|stopped_at_failure].
  split_call. stopped_at_failure.
Qed.

Lemma Read_aborts_cleanly (w : W) (req : ReadRequest) (resp : ReadResponse) :
  let o := run R (Read req resp) w in
  existsb failed (calls o) = true -> aborts_cleanly resp o.
Proof.
  intros o. subst o. unfold aborts_cleanly, Read.
  destruct (Get (ReadRequest_State req)) as [diags state].
  destruct (HasError (Diagnostics_ (Append diags resp))); [stopped_at_failure|].
  split_call; [|stopped_at_failure].
  destruct t; cbn [negb]; [|stopped_at_failure].
  split_call; [|stopped_at_failure].
  destruct (extractGroovyScriptFromXML t);
    destruct (extractDescriptionFromXML t);
    split_call; stopped_at_failure.
Qed.

Lemma Update_aborts_cleanly (w : W) (req : UpdateRequest) (resp : UpdateResponse) :
  let o := run R (Update req resp) w in
  existsb failed (calls o) = true -> aborts_cleanly resp o.
Proof.
  intros o. subst o. unfold aborts_cleanly, Update.
  destruct (Get (UpdateRequest_Plan req)) as [pdiags plan].
  destruct (Get (UpdateRequest_State req)) as [sdiags state].
  destruct (HasError (Diagnostics_ (Append sdiags (Append pdiags resp))));
    [stopped_at_failure|].
  split_call; [|stopped_at_failure].
  split_call; [|stopped_at_failure].
  split_call. stopped_at_failure.
Qed.

Lemma Delete_aborts_cleanly (w : W) (req : DeleteRequest) (resp : DeleteResponse) :
  let o := run R (Delete req resp) w in
  existsb failed (calls o) = true -> aborts_cleanly resp o.
Proof.
  intros o. subst o. unfold aborts_cleanly, Delete.
  destruct (Get (DeleteRequest_State req)) as [diags state].
  destruct (HasError (Diagnostics_ (Append diags resp))); [stopped_at_failure|].
  split_call; [|stopped_at_failure].
  destruct t; cbn [negb]; [|stopped_at_failure].
  split_call; stopped_at_failure.
Qed.

(** C9.  In each of Create, Read, Update and Delete, when a remote call
    fails the operation stops at that call with an error diagnostic and the
    state container is the one that came in; hence a state that differs
    from the incoming one was written after calls that all succeeded. *)
Theorem no_partial_write (w : W)
        (creq : CreateRequest) (rreq : ReadRequest)
        (ureq : UpdateRequest) (dreq : DeleteRequest)
        (resp : Response jenkinsPipelineResourceModel) :
  let unwritten (o : Outcome W (Response jenkinsPipelineResourceModel)) :=
    (existsb failed (calls o) = true -> aborts_cleanly resp o) /\
    (State (value o) <> State resp -> existsb failed (calls o) = false) in
  unwritten (run R (Create creq resp) w) /\
  unwritten (run R (Read rreq resp) w) /\
  unwritten (run R (Update ureq resp) w) /\
  unwritten (run R (Delete dreq resp) w).
Proof.
  assert (both : forall o : Outcome W (Response jenkinsPipelineResourceModel),
             (existsb failed (calls o) = true -> aborts_cleanly resp o) ->
             (existsb failed (calls o) = true -> aborts_cleanly resp o) /\
             (State (value o) <> State resp -> existsb failed (calls o) = false)).
  { intros o H. split; [exact H|]. intros Hs.
    destruct (existsb failed (calls o)); [|reflexivity].
    destruct (H eq_refl) as [_ [Hu _]]. contradiction. }
  cbv zeta. split; [|split; [|split]]; apply both.
  - apply Create_aborts_cleanly.
  - apply Read_aborts_cleanly.
  - apply Update_aborts_cleanly.
  - apply Delete_aborts_cleanly.
Qed.

End Reconciler.

(** ** DataSourceReader *)

Section Reader.
Import DataSource.
Context {W : Type} (R : Remote W).

(** C7.  A data-source read with neither [id] nor [name] supplied fails
    with the diagnostic "Missing Identifier", writes no state, and makes
    no remote call. *)
Theorem DataSource_missing_identifier (w : W) (diags : Diagnostics)
        (config : jenkinsPipelineDataSourceModel) (resp : ReadResponse) :
  HasError (Diagnostics_ (Append diags resp)) = false ->
  supplied (ID config) = false ->
  supplied (Name config) = false ->
  let o := run R (Read (mkReadRequest (mkData (diags, config))) resp) w in
  In (mkDiagnostic SeverityError "Missing Identifier"
        "One of 'id' or 'name' must be provided to read the Jenkins Pipeline data source.")
     (Diagnostics_ (value o)) /\
  HasError (Diagnostics_ (value o)) = true /\
  State (value o) = State resp /\
  calls o = [] /\
  world o = w.
Proof.
  intros Hd Hi Hn o. subst o. unfold supplied in Hi, Hn.
  unfold Read. cbn [Get ReadRequest_Config]. rewrite Hd, Hi, Hn.
  cbn [run value calls world AddError Diagnostics_ State].
  split; [apply In_AddError|]. split; [apply HasError_AddError|].
  repeat split; reflexivity.
Qed.



(** With [id] supplied, [name] plays no part in a data-source read. *)
Lemma DataSource_ignores_name (w : W) (diags : Diagnostics)
      (config : jenkinsPipelineDataSourceModel) (resp : ReadResponse) (name' : tfString) :
  supplied (ID config) = true ->
  run R (Read (mkReadRequest
                 (mkData (diags, {| ID := ID config; Name := name';
                                    Description := Description config;
                                    GroovyScript := GroovyScript config;
                                    LastBuildStatus := LastBuildStatus config;
                                    LastBuildDuration := LastBuildDuration config |})))
              resp) w =
  run R (Read (mkReadRequest (mkData (diags, config))) resp) w.
Proof.
  intros Hi. unfold supplied in Hi. unfold Read.
  cbn [Get ReadRequest_Config ID Name]. now rewrite Hi.
Qed.

(** Diagnostics that came through [AddError] are the old ones or the one
    added. *)
Ltac old_or_added H :=
  repeat (cbn [AddError Diagnostics_ State_Set Append Diagnostics_Append] in H;
          match type of H with
          | In _ (Diagnostics_AddError _ _ _) =>
              apply AddError_inv in H; destruct H as [H | H]
          end).

(** A data-source read that found its identifier raises no "Missing
    Identifier" and asks for the job by that identifier first; its later
    calls are methods of the job it got. *)
Lemma DataSource_after_identifier (w : W) (diags : Diagnostics)
      (config : jenkinsPipelineDataSourceModel) (resp : ReadResponse) :
  let jobName :=
    if supplied (ID config) then ValueString (ID config) else ValueString (Name config) in
  HasError (Diagnostics_ (Append diags resp)) = false ->
  supplied (ID config) || supplied (Name config) = true ->
  let o := run R (Read (mkReadRequest (mkData (diags, config))) resp) w in
  (forall d, In d (Diagnostics_ (value o)) -> summary d = "Missing Identifier" ->
             In d (Diagnostics_ (Append diags resp))) /\
  hd_error (requests o) = Some (GetJob jobName) /\
  (forall n, In (GetJob n) (requests o) -> n = jobName).
Proof.
  intros jobName Hd Hs o.
  assert (Hj : (if negb (IsNull (ID config)) && negb (IsUnknown (ID config))
                then Some (ValueString (ID config))
                else if negb (IsNull (Name config)) && negb (IsUnknown (Name config))
                     then Some (ValueString (Name config)) else None) = Some jobName).
  { subst jobName. unfold supplied in *.
    destruct (negb (IsNull (ID config)) && negb (IsUnknown (ID config))); [reflexivity|].
    cbn [orb] in Hs. now rewrite Hs. }
  subst o. unfold Read. cbn [Get ReadRequest_Config]. rewrite Hd, Hj. clear Hj.
  split_call.
  - split_call.
    + destruct (extractGroovyScriptFromXML t0); destruct (extractDescriptionFromXML t0);
        (destruct (Number (LastCompletedBuild (Job_Raw t)) >? 0); [split_call|]);
        cbn [run value calls requests map request projT1 hd_error];
        (split; [intros d Hin Hm; old_or_added Hin; subst;
                   solve [assumption | discriminate Hm]|]);
        (split; [reflexivity|]);
        intros n Hn; cbn [In] in Hn;
        repeat (destruct Hn as [Hn | Hn]; [congruence || discriminate Hn|]);
        destruct Hn.
    + cbn [run value calls requests map request projT1 hd_error].
      split; [intros d Hin Hm; old_or_added Hin; subst;
                solve [assumption | discriminate Hm]|].
      split; [reflexivity|].
      intros n Hn; cbn [In] in Hn;
        repeat (destruct Hn as [Hn | Hn]; [congruence || discriminate Hn|]);
        destruct Hn.
  - destruct (Contains e "404" || Contains e "no such job");
      cbn [run value calls requests map request projT1 hd_error];
      (split; [intros d Hin Hm; old_or_added Hin; subst;
                 solve [assumption | discriminate Hm]|]);
      (split; [reflexivity|]);
      intros n Hn; cbn [In] in Hn;
      repeat (destruct Hn as [Hn | Hn]; [congruence || discriminate Hn|]);
      destruct Hn.
Qed.

(** The record a data-source read writes once the job and its
    configuration document were fetched. *)
Lemma DataSource_written (w w1 w2 : W) (diags : Diagnostics)
      (config : jenkinsPipelineDataSourceModel) (resp : ReadResponse)
      (job : Job) (configXML : string) :
  let jobName :=
    if supplied (ID config) then ValueString (ID config) else ValueString (Name config) in
  HasError (Diagnostics_ (Append diags resp)) = false ->
  supplied (ID config) || supplied (Name config) = true ->
  serve R (GetJob jobName) w = (Ok job, w1) ->
  serve R (Job_GetConfig job) w1 = (Ok configXML, w2) ->
  let o := run R (Read (mkReadRequest (mkData (diags, config))) resp) w in
  exists m,
    State (value o) = Some m /\
    ID m = StringValue (JobResponse_Name (Job_Raw job)) /\
    Name m = StringValue (JobResponse_Name (Job_Raw job)) /\
    Description m =
      StringValue (match extractDescriptionFromXML configXML with
                   | Ok d => d | Err _ => "" end) /\
    GroovyScript m =
      StringValue (match extractGroovyScriptFromXML configXML with
                   | Ok g => g | Err _ => "" end).
Proof.
  intros jobName Hd Hs Hg Hc o.
  assert (Hj : (if negb (IsNull (ID config)) && negb (IsUnknown (ID config))
                then Some (ValueString (ID config))
                else if negb (IsNull (Name config)) && negb (IsUnknown (Name config))
                     then Some (ValueString (Name config)) else None) = Some jobName).
  { subst jobName. unfold supplied in *.
    destruct (negb (IsNull (ID config)) && negb (IsUnknown (ID config))); [reflexivity|].
    cbn [orb] in Hs. now rewrite Hs. }
  subst o. unfold Read. cbn [Get ReadRequest_Config]. rewrite Hd, Hj. clear Hj.
  answer_call. answer_call.
  destruct (extractGroovyScriptFromXML configXML);
    destruct (extractDescriptionFromXML configXML);
    (destruct (Number (LastCompletedBuild (Job_Raw job)) >? 0); [split_call|]);
    cbn [run value State_Set Append State];
    eexists; (split; [reflexivity|]); repeat split; reflexivity.
Qed.

(** C10.  With both [id] and [name] supplied, a data-source read raises no
    "Missing Identifier", looks the job up by [id] and gives the same
    outcome whatever [name] is; once the job and its configuration
    document are fetched, the [id] and [name] written are both the name
    the server reported. *)
Theorem DataSource_id_precedence (w : W) (diags : Diagnostics)
        (config : jenkinsPipelineDataSourceModel) (resp : ReadResponse) :
  HasError (Diagnostics_ (Append diags resp)) = false ->
  supplied (ID config) = true ->
  supplied (Name config) = true ->
  let o := run R (Read (mkReadRequest (mkData (diags, config))) resp) w in
  (forall d, In d (Diagnostics_ (value o)) -> summary d = "Missing Identifier" ->
             In d (Diagnostics_ (Append diags resp))) /\
  hd_error (requests o) = Some (GetJob (ValueString (ID config))) /\
  (forall n, In (GetJob n) (requests o) -> n = ValueString (ID config)) /\
  (forall name' : tfString,
     run R (Read (mkReadRequest
                    (mkData (diags, {| ID := ID config; Name := name';
                                       Description := Description config;
                                       GroovyScript := GroovyScript config;
                                       LastBuildStatus := LastBuildStatus config;
                                       LastBuildDuration := LastBuildDuration config |})))
                 resp) w = o) /\
  (forall (job : Job) (configXML : string) (w1 w2 : W),
     serve R (GetJob (ValueString (ID config))) w = (Ok job, w1) ->
     serve R (Job_GetConfig job) w1 = (Ok configXML, w2) ->
     exists m,
       State (value o) = Some m /\
       ID m = StringValue (JobResponse_Name (Job_Raw job)) /\
       Name m = StringValue (JobResponse_Name (Job_Raw job))).
Proof.
  intros Hd Hi Hn o.
  assert (Hs : supplied (ID config) || supplied (Name config) = true)
    by (now rewrite Hi).
  pose proof (DataSource_after_identifier w diags config resp Hd Hs) as Ha.
  cbv zeta in Ha. rewrite Hi in Ha. destruct Ha as [Hm [Hh Hg]].
  split; [exact Hm|]. split; [exact Hh|]. split; [exact Hg|]. split.
  - intros name'. now apply DataSource_ignores_name.
  - intros job configXML w1 w2 Hj Hc.
    pose proof (DataSource_written w w1 w2 diags config resp job configXML Hd Hs) as Hw.
    cbv zeta in Hw. rewrite Hi in Hw.
    destruct (Hw Hj Hc) as [m [H1 [H2 [H3 _]]]]. exists m. auto.
Qed.

End Reader.

(** ** Two creates in a row

    The collaborator [inMemory] stores a second job of the same name when
    its create endpoint is called twice; after two creates of the same
    plan it holds one. *)
Lemma lookupJob_None_count (name : string) (jobs : list (string * string)) :
  lookupJob name jobs = None -> jobCount name jobs = 0%nat.
Proof.
  unfold jobCount. induction jobs as [|[n config] jobs IH]; [reflexivity|].
  cbn [lookupJob filter fst]. destruct (String.eqb n name); [discriminate|exact IH].
Qed.

Lemma Create_twice_inMemory (jobs : list (string * string)) (diags : Diagnostics)
      (plan : Resource.jenkinsPipelineResourceModel)
      (resp resp' : Resource.CreateResponse) :
  HasError (Diagnostics_ (Append diags resp)) = false ->
  HasError (Diagnostics_ (Append diags resp')) = false ->
  lookupJob (ValueString (Resource.Name plan)) jobs = None ->
  let jobName := ValueString (Resource.Name plan) in
  let req := Resource.mkCreateRequest (mkData (diags, plan)) in
  let first := run inMemory (Resource.Create req resp) jobs in
  let second := run inMemory (Resource.Create req resp') (world first) in
  HasError (Diagnostics_ (value first)) = false /\
  jobCount jobName (world first) = 1%nat /\
  HasError (Diagnostics_ (value second)) = true /\
  State (value second) = State resp' /\
  requests second = [JobExists jobName] /\
  jobCount jobName (world second) = 1%nat.
Proof.
  intros Hd Hd' Hl jobName req first second. subst jobName.
  set (jobName := ValueString (Resource.Name plan)) in *.
  assert (Hw : world first =
               (jobName, buildPipelineConfigXML
                           (ValueString (Resource.Description plan))
                           (ValueString (Resource.GroovyScript plan))) :: jobs
               /\ HasError (Diagnostics_ (value first)) = false).
  { set (configXML := buildPipelineConfigXML
                         (ValueString (Resource.Description plan))
                         (ValueString (Resource.GroovyScript plan))).
    assert (S1 : serve inMemory (JobExists jobName) jobs = (Ok false, jobs)).
    { cbn [inMemory serve inMemory_serve]. now rewrite Hl. }
    assert (S2 : serve inMemory (CreateJob configXML jobName) jobs
                 = (Ok (jobOf jobName configXML), (jobName, configXML) :: jobs))
      by reflexivity.
    assert (S3 : serve inMemory (GetJob jobName) ((jobName, configXML) :: jobs)
                 = (Ok (jobOf jobName configXML), (jobName, configXML) :: jobs)).
    { cbn [inMemory serve inMemory_serve lookupJob]. now rewrite String.eqb_refl. }
    assert (S4 : clock inMemory ((jobName, configXML) :: jobs)
                 = ("2024-01-01T00:00:00Z", (jobName, configXML) :: jobs))
      by reflexivity.
    subst first req. unfold Resource.Create. cbn [Get Resource.CreateRequest_Plan].
    rewrite Hd. fold jobName configXML.
    answer_call. answer_call. answer_call. answer_call.
    cbn [run world value State_Set Append Diagnostics_ Diagnostics_Append].
    split; [reflexivity | exact Hd]. }
  destruct Hw as [Hw Hok].
  assert (Hc : jobCount jobName (world first) = 1%nat).
  { rewrite Hw. unfold jobCount. cbn [filter fst]. rewrite String.eqb_refl.
    cbn [List.length]. f_equal. now apply lookupJob_None_count. }
  assert (He : serve inMemory (JobExists jobName) (world first) = (Ok true, world first)).
  { rewrite Hw. cbn [inMemory serve inMemory_serve lookupJob].
    now rewrite String.eqb_refl. }
  subst second req.
  rewrite (Create_job_present inMemory (world first) (world first) diags plan resp' Hd' He).
  cbn [value world calls requests map request projT1 AddError Diagnostics_ State].
  split; [exact Hok|]. split; [exact Hc|]. split; [apply HasError_AddError|].
  repeat split; try reflexivity. exact Hc.
Qed.

(** ** The theorems at sample inputs *)

(** The job is gone: the existence check answers false. *)
Lemma Read_drift_removal_witness :
  let R := scripted (answers false "" sampleJob) sampleTime in
  let resp : Resource.ReadResponse := mkResponse [] (Some sampleState) in
  let o := run R (Resource.Read (Resource.mkReadRequest (mkData ([], sampleState))) resp) tt in
  HasError (Diagnostics_ (Append [] resp)) = false /\
  serve R (JobExists "nightly") tt = (Ok false, tt) /\
  State (value o) = None /\
  Diagnostics_ (value o) = [] /\
  HasError (Diagnostics_ (value o)) = false /\
  requests o = [JobExists "nightly"].
Proof.
  split; [reflexivity|]. split; [reflexivity|].
  apply (Read_drift_removal (scripted (answers false "" sampleJob) sampleTime)
           tt tt [] sampleState (mkResponse [] (Some sampleState)));
    reflexivity.
Defined.

(** A document whose script section is well formed and whose description
    is missing. *)
Lemma Read_partial_decode_witness :
  let R := scripted (answers true scriptOnly sampleJob) sampleTime in
  let resp : Resource.ReadResponse := mkResponse [] (Some sampleState) in
  let o := run R (Resource.Read (Resource.mkReadRequest (mkData ([], sampleState))) resp) tt in
  HasError (Diagnostics_ (Append [] resp)) = false /\
  serve R (JobExists "nightly") tt = (Ok true, tt) /\
  serve R (GetJobConfig "nightly") tt = (Ok scriptOnly, tt) /\
  clock R tt = (sampleTime, tt) /\
  extractDescriptionFromXML scriptOnly
    = Err "could not find start of description tag in XML" /\
  State (value o) =
    Some {| Resource.ID := StringValue "nightly";
            Resource.Name := StringValue "nightly";
            Resource.Description := StringValue "";
            Resource.GroovyScript := StringValue "echo hi";
            Resource.LastUpdated := StringValue sampleTime |} /\
  In (mkDiagnostic SeverityError "Description Extraction Error"
        "Failed to extract description from job 'nightly' config: could not find start of description tag in XML")
     (Diagnostics_ (value o)) /\
  HasError (Diagnostics_ (value o)) = true.
Proof.
  split; [reflexivity|]. split; [reflexivity|]. split; [reflexivity|].
  split; [reflexivity|]. split; [reflexivity|].
  destruct (Read_partial_decode (scripted (answers true scriptOnly sampleJob) sampleTime)
              tt tt tt tt [] sampleState (mkResponse [] (Some sampleState))
              scriptOnly sampleTime eq_refl eq_refl eq_refl eq_refl)
    as [Hs [_ Hd]].
  split; [exact Hs|].
  exact (Hd "could not find start of description tag in XML" eq_refl).
Defined.

(** C2 as stated fails: for a document whose description is well formed
    and whose script section is missing, the one diagnostic the read
    attaches has severity error, the response reports an error, and no
    diagnostic of another severity is attached; the record is written all
    the same. *)
Lemma Read_partial_decode_counterexample :
  let R := scripted (answers true descriptionOnly sampleJob) sampleTime in
  let resp : Resource.ReadResponse := mkResponse [] (Some sampleState) in
  let o := run R (Resource.Read (Resource.mkReadRequest (mkData ([], sampleState))) resp) tt in
  extractGroovyScriptFromXML descriptionOnly
    = Err "could not find start of Groovy script tag in XML" /\
  extractDescriptionFromXML descriptionOnly = Ok "nightly build" /\
  Diagnostics_ (value o) =
    [mkDiagnostic SeverityError "Groovy Script Extraction Error"
       "Failed to extract Groovy script from job 'nightly' config: could not find start of Groovy script tag in XML"] /\
  HasError (Diagnostics_ (value o)) = true /\
  existsb (fun d => negb (isError d)) (Diagnostics_ (value o)) = false /\
  State (value o) =
    Some {| Resource.ID := StringValue "nightly";
            Resource.Name := StringValue "nightly";
            Resource.Description := StringValue "nightly build";
            Resource.GroovyScript := StringValue "";
            Resource.LastUpdated := StringValue sampleTime |}.
Proof.
  cbv zeta. repeat split; vm_compute; reflexivity.
Qed.

(** Two creates of the same plan against [inMemory]: the theorem at the
    world the first create left. *)
Lemma Create_already_exists_witness :
  let req := Resource.mkCreateRequest (mkData ([], samplePlan)) in
  let resp : Resource.CreateResponse := mkResponse [] None in
  let first := run inMemory (Resource.Create req resp) [] in
  let second := run inMemory (Resource.Create req resp) (world first) in
  HasError (Diagnostics_ (value first)) = false /\
  HasError (Diagnostics_ (Append [] resp)) = false /\
  serve inMemory (JobExists "renamed") (world first) = (Ok true, world first) /\
  (In (mkDiagnostic SeverityError "Job Already Exists"
         "Jenkins job 'renamed' already exists. Consider importing it or using a different name.")
      (Diagnostics_ (value second)) /\
   HasError (Diagnostics_ (value second)) = true /\
   State (value second) = None /\
   requests second = [JobExists "renamed"] /\
   existsb isCreateJob (requests second) = false /\
   world second = world first) /\
  jobCount "renamed" (world second) = 1%nat.
Proof.
  split; [reflexivity|]. split; [reflexivity|]. split; [reflexivity|].
  split; [|reflexivity].
  apply (Create_already_exists inMemory
           (world (run inMemory
                     (Resource.Create (Resource.mkCreateRequest (mkData ([], samplePlan)))
                        (mkResponse [] None)) []))
           (world (run inMemory
                     (Resource.Create (Resource.mkCreateRequest (mkData ([], samplePlan)))
                        (mkResponse [] None)) []))
           [] samplePlan (mkResponse [] None));
    reflexivity.
Defined.

(** A delete of a job that is there, whose delete endpoint fails, and a
    delete of a job that is gone. *)
Lemma Delete_idempotent_witness :
  let down := scripted (override isDeleteJob (unreachable "503")
                          (answers true "" sampleJob)) sampleTime in
  let gone := scripted (answers false "" sampleJob) sampleTime in
  let resp : Resource.DeleteResponse := mkResponse [] (Some sampleState) in
  let req := Resource.mkDeleteRequest (mkData ([], sampleState)) in
  HasError (Diagnostics_ (Append [] resp)) = false /\
  serve down (JobExists "nightly") tt = (Ok true, tt) /\
  serve gone (JobExists "nightly") tt = (Ok false, tt) /\
  (requests (run down (Resource.Delete req resp) tt)
     = [JobExists "nightly"; DeleteJob "nightly"] /\
   In (mkDiagnostic SeverityError "Jenkins Job Deletion Error"
         "Failed to delete Jenkins Pipeline job 'nightly': 503")
      (Diagnostics_ (value (run down (Resource.Delete req resp) tt))) /\
   HasError (Diagnostics_ (value (run down (Resource.Delete req resp) tt))) = true) /\
  (value (run gone (Resource.Delete req resp) tt) = Append [] resp /\
   HasError (Diagnostics_ (value (run gone (Resource.Delete req resp) tt))) = false /\
   requests (run gone (Resource.Delete req resp) tt) = [JobExists "nightly"] /\
   existsb isDeleteJob (requests (run gone (Resource.Delete req resp) tt)) = false).
Proof.
  split; [reflexivity|]. split; [reflexivity|]. split; [reflexivity|]. split.
  - destruct (Delete_idempotent
                (scripted (override isDeleteJob (unreachable "503")
                             (answers true "" sampleJob)) sampleTime)
                tt tt true [] sampleState (mkResponse [] (Some sampleState))
                eq_refl eq_refl) as [_ Hp].
    destruct (Hp eq_refl) as [Hr [He _]].
    split; [exact Hr|]. exact (He "503" eq_refl).
  - destruct (Delete_idempotent
                (scripted (answers false "" sampleJob) sampleTime)
                tt tt false [] sampleState (mkResponse [] (Some sampleState))
                eq_refl eq_refl) as [Ha _].
    exact (Ha eq_refl).
Defined.

(** An update whose plan carries another name than the stored state. *)
Lemma Update_by_state_id_witness :
  let R := scripted (answers true "" sampleJob) sampleTime in
  let resp : Resource.UpdateResponse := mkResponse [] (Some sampleState) in
  let configXML := buildPipelineConfigXML "nightly build" "echo hi" in
  let o := run R (Resource.Update
                    (Resource.mkUpdateRequest (mkData ([], samplePlan))
                                              (mkData ([], sampleState))) resp) tt in
  HasError (Diagnostics_ (Append [] (Append [] resp))) = false /\
  serve R (UpdateJob "nightly" configXML) tt = (Ok sampleJob, tt) /\
  serve R (GetJob "nightly") tt = (Ok sampleJob, tt) /\
  clock R tt = (sampleTime, tt) /\
  requests o = [UpdateJob "nightly" configXML; GetJob "nightly"] /\
  State (value o) =
    Some {| Resource.ID := StringValue "nightly";
            Resource.Name := StringValue "nightly";
            Resource.Description := StringValue "nightly build";
            Resource.GroovyScript := StringValue "echo hi";
            Resource.LastUpdated := StringValue sampleTime |} /\
  Diagnostics_ (value o) = [].
Proof.
  split; [reflexivity|]. split; [reflexivity|]. split; [reflexivity|].
  split; [reflexivity|].
  destruct (Update_by_state_id (scripted (answers true "" sampleJob) sampleTime)
              tt [] [] samplePlan sampleState (mkResponse [] (Some sampleState)))
    as [_ [_ Hw]].
  exact (Hw sampleJob sampleJob sampleTime tt tt tt eq_refl eq_refl eq_refl eq_refl).
Defined.

(** A read whose configuration fetch fails after the existence check
    succeeded. *)
Lemma no_partial_write_witness :
  let R := scripted (override isGetJobConfig (unreachable "503")
                       (answers true "" sampleJob)) sampleTime in
  let resp : Resource.ReadResponse := mkResponse [] (Some sampleState) in
  let o := run R (Resource.Read (Resource.mkReadRequest (mkData ([], sampleState))) resp) tt in
  existsb failed (calls o) = true /\
  aborts_cleanly resp o /\
  State (value o) = Some sampleState.
Proof.
  split; [reflexivity|]. split; [|reflexivity].
  destruct (no_partial_write
              (scripted (override isGetJobConfig (unreachable "503")
                           (answers true "" sampleJob)) sampleTime)
              tt
              (Resource.mkCreateRequest (mkData ([], samplePlan)))
              (Resource.mkReadRequest (mkData ([], sampleState)))
              (Resource.mkUpdateRequest (mkData ([], samplePlan)) (mkData ([], sampleState)))
              (Resource.mkDeleteRequest (mkData ([], sampleState)))
              (mkResponse [] (Some sampleState)))
    as [_ [[Hr _] _]].
  exact (Hr eq_refl).
Defined.

(** Neither identifier supplied: [id] null and [name] unknown. *)
Lemma DataSource_missing_identifier_witness :
  let R := scripted (answers true "" sampleJob) sampleTime in
  let resp : DataSource.ReadResponse := mkResponse [] None in
  let config := sampleConfig StringNull StringUnknown in
  let o := run R (DataSource.Read (DataSource.mkReadRequest (mkData ([], config))) resp) tt in
  HasError (Diagnostics_ (Append [] resp)) = false /\
  supplied (DataSource.ID config) = false /\
  supplied (DataSource.Name config) = false /\
  In (mkDiagnostic SeverityError "Missing Identifier"
        "One of 'id' or 'name' must be provided to read the Jenkins Pipeline data source.")
     (Diagnostics_ (value o)) /\
  HasError (Diagnostics_ (value o)) = true /\
  State (value o) = None /\
  calls o = [] /\
  world o = tt.
Proof.
  split; [reflexivity|]. split; [reflexivity|]. split; [reflexivity|].
  apply (DataSource_missing_identifier (scripted (answers true "" sampleJob) sampleTime)
           tt [] (sampleConfig StringNull StringUnknown) (mkResponse [] None));
    reflexivity.
Defined.



(** Both identifiers supplied, with different values. *)
Lemma DataSource_id_precedence_witness :
  let R := scripted (answers true descriptionOnly sampleJob) sampleTime in
  let resp : DataSource.ReadResponse := mkResponse [] None in
  let config := sampleConfig (StringValue "nightly") (StringValue "other") in
  let o := run R (DataSource.Read (DataSource.mkReadRequest (mkData ([], config))) resp) tt in
  HasError (Diagnostics_ (Append [] resp)) = false /\
  supplied (DataSource.ID config) = true /\
  supplied (DataSource.Name config) = true /\
  hd_error (requests o) = Some (GetJob "nightly") /\
  exists m,
    State (value o) = Some m /\
    DataSource.ID m = StringValue "nightly" /\
    DataSource.Name m = StringValue "nightly".
Proof.
  split; [reflexivity|]. split; [reflexivity|]. split; [reflexivity|].
  destruct (DataSource_id_precedence
              (scripted (answers true descriptionOnly sampleJob) sampleTime)
              tt [] (sampleConfig (StringValue "nightly") (StringValue "other"))
              (mkResponse [] None) eq_refl eq_refl eq_refl)
    as [_ [Hh [_ [_ Hw]]]].
  split; [exact Hh|].
  exact (Hw sampleJob descriptionOnly tt tt eq_refl eq_refl).
Defined.

(** * Further properties of the codec *)

Lemma HasPrefix_split (s substr : string) :
  HasPrefix s substr = true -> exists post, s = substr ++ post.
Proof.
  revert s. induction substr as [|c p IH]; intros s H.
  - exists s. reflexivity.
  - destruct s as [|d s]; simpl in H; [discriminate|].
    apply andb_true_iff in H. destruct H as [Hc H].
    apply Ascii.eqb_eq in Hc. subst d.
    destruct (IH _ H) as [post ->]. exists post. reflexivity.
Qed.

Lemma HasPrefix_weaken (s t substr : string) :
  HasPrefix s substr = true -> HasPrefix (s ++ t) substr = true.
Proof.
  intros H. destruct (HasPrefix_split _ _ H) as [post ->].
  rewrite append_assoc. apply HasPrefix_append.
Qed.

(** Where [Index] finds an instance, the string splits there, and no
    instance starts earlier. *)
Lemma Index_split (s substr : string) :
  Index s substr <> -1 ->
  exists pre post,
    s = pre ++ substr ++ post /\
    Index s substr = len pre /\
    absent_before pre (substr ++ post) substr = true.
Proof.
  induction s as [|c s IH]; cbn [Index]; intros H.
  - destruct (HasPrefix "" substr) eqn:E; [|congruence].
    destruct (HasPrefix_split _ _ E) as [post Hp].
    exists "", post. repeat split; assumption.
  - destruct (HasPrefix (String c s) substr) eqn:E.
    + destruct (HasPrefix_split _ _ E) as [post Hp].
      exists "", post. repeat split; assumption.
    + destruct (Index s substr =? -1) eqn:E1; [congruence|].
      apply Z.eqb_neq in E1. destruct (IH E1) as [pre [post [Hs [Hi Ha]]]].
      exists (String c pre), post. split; [|split].
      * simpl. now rewrite <- Hs.
      * rewrite Hi. unfold len. simpl String.length. lia.
      * cbn [absent_before]. rewrite Ha, andb_true_r.
        change (String c pre ++ substr ++ post) with (String c (pre ++ substr ++ post)).
        rewrite <- Hs, E. reflexivity.
Qed.

(** A non-empty [substr] that starts at no byte of [s] in [s ++ t] is not
    contained in [s]. *)
Lemma absent_before_Index (s t substr : string) :
  substr <> "" ->
  absent_before s t substr = true -> Index s substr = -1.
Proof.
  intros Hne. induction s as [|c s IH]; intros H.
  - destruct substr; [congruence | reflexivity].
  - cbn [absent_before] in H. apply andb_true_iff in H. destruct H as [Hc H].
    apply negb_true_iff in Hc. cbn [Index].
    destruct (HasPrefix (String c s) substr) eqn:E.
    + apply (HasPrefix_weaken _ t) in E. congruence.
    + now rewrite (IH H).
Qed.

(** An instance that begins [t] is found in [s ++ t], at the end of [s] or
    before. *)
Lemma Index_append_le (s t substr : string) :
  HasPrefix t substr = true ->
  Index (s ++ t) substr <> -1 /\ Index (s ++ t) substr <= len s.
Proof.
  intros Ht. induction s as [|c s [IH1 IH2]].
  - simpl. destruct t; simpl in *; rewrite Ht; unfold len; simpl; lia.
  - change (String c s ++ t) with (String c (s ++ t)). cbn [Index].
    pose proof (len_nonneg (String c s)).
    destruct (HasPrefix (String c (s ++ t)) substr); [lia|].
    destruct (Index (s ++ t) substr =? -1) eqn:E; [apply Z.eqb_eq in E; congruence|].
    pose proof (Index_lower (s ++ t) substr).
    unfold len in *. simpl String.length. lia.
Qed.

Lemma Contains_true (s substr : string) :
  Contains s substr = true <-> Index s substr <> -1.
Proof.
  pose proof (Contains_false s substr) as H.
  destruct (Contains s substr); split; intros; try congruence.
  - intros E. apply H in E. discriminate.
  - exfalso. apply H0. now apply H.
Qed.

Lemma Contains_middle (pre substr post : string) :
  Contains (pre ++ substr ++ post) substr = true.
Proof. apply Contains_true, Index_append_le, HasPrefix_append. Qed.

Lemma append_empty_r (s : string) : s ++ "" = s.
Proof. induction s as [|c s IH]; simpl; [reflexivity | now rewrite IH]. Qed.

Lemma drop_append_le (n : nat) (a b : string) :
  (n <= String.length a)%nat -> drop n (a ++ b) = drop n a ++ b.
Proof.
  revert a. induction n as [|n IH]; intros a H; [reflexivity|].
  destruct a as [|c a]; simpl in *; [lia|]. apply IH. lia.
Qed.

Lemma take_append_le (n : nat) (a b : string) :
  (n <= String.length a)%nat -> take n (a ++ b) = take n a.
Proof.
  revert a. induction n as [|n IH]; intros a H; [reflexivity|].
  destruct a as [|c a]; simpl in *; [lia|]. now rewrite IH by lia.
Qed.

(** What an extractor with delimiters [start] and [end_] returns, read off
    the positions [Index] finds.  Both extractors are instances. *)
Lemma between_found (xmlConfig start end_ : string) :
  end_ <> "" ->
  Index xmlConfig start <> -1 ->
  let startIndex := Index xmlConfig start + len start in
  let endIndex := Index (slice_from xmlConfig startIndex) end_ in
  endIndex <> -1 ->
  exists pre post,
    xmlConfig = pre ++ start ++ slice xmlConfig startIndex (endIndex + startIndex)
                    ++ end_ ++ post /\
    Index xmlConfig start = len pre /\
    Contains (slice xmlConfig startIndex (endIndex + startIndex)) end_ = false.
Proof.
  intros Hne Hs startIndex endIndex He. subst endIndex startIndex.
  destruct (Index_split _ _ Hs) as [pre [rest [Hx [Hi _]]]].
  rewrite Hi in *.
  assert (Hr : slice_from xmlConfig (len pre + len start) = rest).
  { rewrite Hx. rewrite <- (append_empty_r rest) at 1.
    rewrite slice_from_between. apply append_empty_r. }
  rewrite Hr in *.
  destruct (Index_split _ _ He) as [body [post [Hb [Hj Ha]]]].
  rewrite Hj.
  assert (Hsl : slice xmlConfig (len pre + len start) (len body + (len pre + len start))
                = body).
  { rewrite Hx, Hb. apply slice_between. }
  rewrite Hsl. exists pre, post. split; [|split].
  - rewrite Hx at 1. now rewrite Hb.
  - reflexivity.
  - apply Contains_false. now apply (absent_before_Index body (end_ ++ post)).
Qed.

(** X3.  A script that [extractGroovyScriptFromXML] returns stands in the
    document between the first opening delimiter and the closing delimiter
    that follows it, and does not contain the closing delimiter. *)
Theorem extractGroovyScript_sound (xmlConfig script : string) :
  extractGroovyScriptFromXML xmlConfig = Ok script ->
  exists pre post,
    xmlConfig = pre ++ scriptStart ++ script ++ scriptEnd ++ post /\
    Index xmlConfig scriptStart = len pre /\
    Contains script scriptEnd = false.
Proof.
  unfold extractGroovyScriptFromXML. intros H.
  destruct (Index xmlConfig scriptStart =? -1) eqn:E1; [discriminate|].
  apply Z.eqb_neq in E1. cbv zeta in H.
  destruct (Index (slice_from xmlConfig (Index xmlConfig scriptStart + len scriptStart))
                  scriptEnd =? -1) eqn:E2; [discriminate|].
  apply Z.eqb_neq in E2. injection H as <-.
  apply between_found; [discriminate | exact E1 | exact E2].
Qed.

(** X5.  The same for [extractDescriptionFromXML]. *)
Theorem extractDescription_sound (xmlConfig description : string) :
  extractDescriptionFromXML xmlConfig = Ok description ->
  exists pre post,
    xmlConfig = pre ++ descStart ++ description ++ descEnd ++ post /\
    Index xmlConfig descStart = len pre /\
    Contains description descEnd = false.
Proof.
  unfold extractDescriptionFromXML. intros H.
  destruct (Index xmlConfig descStart =? -1) eqn:E1; [discriminate|].
  apply Z.eqb_neq in E1. cbv zeta in H.
  destruct (Index (slice_from xmlConfig (Index xmlConfig descStart + len descStart))
                  descEnd =? -1) eqn:E2; [discriminate|].
  apply Z.eqb_neq in E2. injection H as <-.
  apply between_found; [discriminate | exact E1 | exact E2].
Qed.

(** Why an extractor with delimiters [start] and [end_] fails. *)
Lemma between_no_end (pre rest start end_ : string) :
  Index (pre ++ start ++ rest) start = len pre ->
  Contains rest end_ = false ->
  Index (pre ++ start ++ rest) start <> -1 /\
  Index (slice_from (pre ++ start ++ rest)
                    (Index (pre ++ start ++ rest) start + len start)) end_ = -1.
Proof.
  intros Hi Hc. rewrite Hi. pose proof (len_nonneg pre). split; [lia|].
  rewrite <- (append_empty_r rest) at 1.
  rewrite slice_from_between, append_empty_r. now apply Contains_false.
Qed.

(** X4.  [extractGroovyScriptFromXML] fails in two ways only: with the
    start error exactly when the document does not contain the opening
    delimiter, and with the end error when no closing delimiter follows the
    first opening delimiter, whatever precedes it. *)
Theorem extractGroovyScript_errors (xmlConfig : string) :
  (Contains xmlConfig scriptStart = false <->
   extractGroovyScriptFromXML xmlConfig
     = Err "could not find start of Groovy script tag in XML") /\
  (forall pre rest,
     xmlConfig = pre ++ scriptStart ++ rest ->
     Index xmlConfig scriptStart = len pre ->
     Contains rest scriptEnd = false ->
     extractGroovyScriptFromXML xmlConfig
       = Err "could not find end of Groovy script tag in XML") /\
  (forall e,
     extractGroovyScriptFromXML xmlConfig = Err e ->
     e = "could not find start of Groovy script tag in XML" \/
     (e = "could not find end of Groovy script tag in XML" /\
      Contains xmlConfig scriptStart = true)).
Proof.
  unfold extractGroovyScriptFromXML. split; [|split].
  - rewrite Contains_false. split.
    + intros ->. reflexivity.
    + destruct (Index xmlConfig scriptStart =? -1) eqn:E;
        [now apply Z.eqb_eq in E|].
      cbv zeta. destruct (Index (slice_from _ _) _ =? -1); intros H; discriminate H.
  - intros pre rest -> Hi Hc.
    destruct (between_no_end pre rest scriptStart scriptEnd Hi Hc) as [H1 H2].
    apply Z.eqb_neq in H1. rewrite H1. cbv zeta. now rewrite H2.
  - intros e. destruct (Index xmlConfig scriptStart =? -1) eqn:E.
    + intros H. injection H as <-. now left.
    + apply Z.eqb_neq in E. cbv zeta. destruct (Index (slice_from _ _) _ =? -1); intros H; [|discriminate H].
      injection H as <-. right. split; [reflexivity|].
      now apply Contains_true.
Qed.

Lemma extractGroovyScript_errors_witness :
  Contains "]]></script><script><![CDATA[echo hi" scriptEnd = true /\
  "]]></script><script><![CDATA[echo hi" = "]]></script>" ++ scriptStart ++ "echo hi" /\
  Index "]]></script><script><![CDATA[echo hi" scriptStart = len "]]></script>" /\
  Contains "echo hi" scriptEnd = false /\
  extractGroovyScriptFromXML "]]></script><script><![CDATA[echo hi"
    = Err "could not find end of Groovy script tag in XML".
Proof.
  split; [reflexivity|]. split; [reflexivity|]. split; [reflexivity|].
  split; [reflexivity|].
  destruct (extractGroovyScript_errors "]]></script><script><![CDATA[echo hi")
    as [_ [H _]].
  exact (H "]]></script>" "echo hi" eq_refl eq_refl eq_refl).
Defined.

(** X6.  The same for [extractDescriptionFromXML]. *)
Theorem extractDescription_errors (xmlConfig : string) :
  (Contains xmlConfig descStart = false <->
   extractDescriptionFromXML xmlConfig
     = Err "could not find start of description tag in XML") /\
  (forall pre rest,
     xmlConfig = pre ++ descStart ++ rest ->
     Index xmlConfig descStart = len pre ->
     Contains rest descEnd = false ->
     extractDescriptionFromXML xmlConfig
       = Err "could not find end of description tag in XML") /\
  (forall e,
     extractDescriptionFromXML xmlConfig = Err e ->
     e = "could not find start of description tag in XML" \/
     (e = "could not find end of description tag in XML" /\
      Contains xmlConfig descStart = true)).
Proof.
  unfold extractDescriptionFromXML. split; [|split].
  - rewrite Contains_false. split.
    + intros ->. reflexivity.
    + destruct (Index xmlConfig descStart =? -1) eqn:E;
        [now apply Z.eqb_eq in E|].
      cbv zeta. destruct (Index (slice_from _ _) _ =? -1); intros H; discriminate H.
  - intros pre rest -> Hi Hc.
    destruct (between_no_end pre rest descStart descEnd Hi Hc) as [H1 H2].
    apply Z.eqb_neq in H1. rewrite H1. cbv zeta. now rewrite H2.
  - intros e. destruct (Index xmlConfig descStart =? -1) eqn:E.
    + intros H. injection H as <-. now left.
    + apply Z.eqb_neq in E. cbv zeta. destruct (Index (slice_from _ _) _ =? -1); intros H; [|discriminate H].
      injection H as <-. right. split; [reflexivity|].
      now apply Contains_true.
Qed.

Lemma extractDescription_errors_witness :
  Contains "</description><description>nightly" descEnd = true /\
  Index "</description><description>nightly" descStart = len "</description>" /\
  Contains "nightly" descEnd = false /\
  extractDescriptionFromXML "</description><description>nightly"
    = Err "could not find end of description tag in XML".
Proof.
  split; [reflexivity|]. split; [reflexivity|]. split; [reflexivity|].
  destruct (extractDescription_errors "</description><description>nightly")
    as [_ [H _]].
  exact (H "</description>" "nightly" eq_refl eq_refl eq_refl).
Defined.

(** X1.  Each field comes back on its own condition: the description
    whenever it does not contain its closing delimiter, whatever the script
    is; the script whenever it does not contain its closing delimiter and
    the description does not contain the script's opening delimiter, even
    if the description does not come back. *)
Theorem fields_round_trip_separately (description groovyScript : string) :
  (Contains description descEnd = false ->
   extractDescriptionFromXML (buildPipelineConfigXML description groovyScript)
     = Ok description) /\
  (Contains groovyScript scriptEnd = false ->
   Contains description scriptStart = false ->
   extractGroovyScriptFromXML (buildPipelineConfigXML description groovyScript)
     = Ok groovyScript).
Proof.
  split.
  - intros Hd. apply extractDescription_build. exact Hd.
  - intros Hs Hd. apply extractGroovyScript_build; assumption.
Qed.

Lemma fields_round_trip_separately_witness :
  Contains "nightly" descEnd = false /\
  Contains "echo '</description>]]></script>'" scriptEnd = true /\
  extractDescriptionFromXML
    (buildPipelineConfigXML "nightly" "echo '</description>]]></script>'")
    = Ok "nightly" /\
  Contains "echo hi" scriptEnd = false /\
  Contains "a</description>b" scriptStart = false /\
  Contains "a</description>b" descEnd = true /\
  extractGroovyScriptFromXML (buildPipelineConfigXML "a</description>b" "echo hi")
    = Ok "echo hi".
Proof.
  split; [reflexivity|]. split; [reflexivity|]. split.
  - exact (proj1 (fields_round_trip_separately
                    "nightly" "echo '</description>]]></script>'") eq_refl).
  - split; [reflexivity|]. split; [reflexivity|]. split; [reflexivity|].
    exact (proj2 (fields_round_trip_separately "a</description>b" "echo hi")
                 eq_refl eq_refl).
Defined.

(** X2.  The document built from any description and any script decodes:
    neither extractor fails on it, and the description that comes back is
    the description that went in, cut at some byte. *)
Theorem build_always_decodes (description groovyScript : string) :
  (exists n, (n <= String.length description)%nat /\
             extractDescriptionFromXML (buildPipelineConfigXML description groovyScript)
               = Ok (take n description)) /\
  (exists g, extractGroovyScriptFromXML (buildPipelineConfigXML description groovyScript)
               = Ok g).
Proof.
  rewrite buildPipelineConfigXML_shape. split.
  - set (rest := descEnd ++ docMiddle ++ scriptStart ++ groovyScript ++ scriptEnd ++ docSuffix).
    unfold extractDescriptionFromXML.
    assert (H1 : Index (docPrefix ++ descStart ++ description ++ rest) descStart
                 = len docPrefix).
    { apply Index_first; [vm_compute; reflexivity | apply HasPrefix_append]. }
    rewrite H1. cbv zeta.
    pose proof (len_nonneg docPrefix) as Hp.
    destruct (len docPrefix =? -1) eqn:E; [lia|]. clear E.
    rewrite slice_from_between.
    destruct (Index_append_le description rest descEnd (HasPrefix_append _ _)) as [H2 H3].
    pose proof (Index_lower (description ++ rest) descEnd) as H4.
    apply Z.eqb_neq in H2. rewrite H2. apply Z.eqb_neq in H2.
    exists (Z.to_nat (Index (description ++ rest) descEnd)).
    assert (Hn : (Z.to_nat (Index (description ++ rest) descEnd)
                  <= String.length description)%nat) by (unfold len in H3; lia).
    split; [exact Hn|]. f_equal.
    unfold slice. fold (slice_from (docPrefix ++ descStart ++ description ++ rest)
                                   (len docPrefix + len descStart)).
    rewrite slice_from_between.
    replace (Index (description ++ rest) descEnd + (len docPrefix + len descStart)
             - (len docPrefix + len descStart))
      with (Index (description ++ rest) descEnd) by lia.
    now apply take_append_le.
  - set (tail := groovyScript ++ scriptEnd ++ docSuffix).
    set (a := docPrefix ++ descStart ++ description ++ descEnd ++ docMiddle).
    replace (docPrefix ++ descStart ++ description ++ descEnd ++ docMiddle
               ++ scriptStart ++ tail)
      with (a ++ scriptStart ++ tail)
      by (unfold a; now rewrite !append_assoc).
    unfold extractGroovyScriptFromXML.
    destruct (Index_append_le a (scriptStart ++ tail) scriptStart (HasPrefix_append _ _))
      as [H1 H2].
    pose proof (Index_lower (a ++ scriptStart ++ tail) scriptStart) as H0.
    apply Z.eqb_neq in H1. rewrite H1. apply Z.eqb_neq in H1. cbv zeta.
    set (startIndex := Index (a ++ scriptStart ++ tail) scriptStart + len scriptStart) in *.
    assert (Hs : slice_from (a ++ scriptStart ++ tail) startIndex
                 = (drop (Z.to_nat startIndex) (a ++ scriptStart) ++ groovyScript)
                     ++ scriptEnd ++ docSuffix).
    { unfold slice_from. rewrite <- (append_assoc a scriptStart tail).
      rewrite drop_append_le.
      - unfold tail. now rewrite append_assoc.
      - rewrite length_append. subst startIndex. unfold len in *. lia. }
    rewrite Hs.
    destruct (Index_append_le (drop (Z.to_nat startIndex) (a ++ scriptStart) ++ groovyScript)
                (scriptEnd ++ docSuffix) scriptEnd (HasPrefix_append _ _)) as [H3 _].
    apply Z.eqb_neq in H3. rewrite H3. eexists. reflexivity.
Qed.

(** The first instance in [s] is the first instance in [s ++ t]. *)
Lemma Index_append_found (s t substr : string) :
  Index s substr <> -1 -> Index (s ++ t) substr = Index s substr.
Proof.
  induction s as [|c s IH]; intros H.
  - cbn [Index] in H. destruct (HasPrefix "" substr) eqn:E; [|congruence].
    destruct substr; [|discriminate E]. destruct t; reflexivity.
  - change (String c s ++ t) with (String c (s ++ t)).
    cbn [Index] in *.
    destruct (HasPrefix (String c s) substr) eqn:E.
    + apply (HasPrefix_weaken _ t) in E.
      change (String c s ++ t) with (String c (s ++ t)) in E. now rewrite E.
    + destruct (Index s substr =? -1) eqn:E1; [congruence|].
      apply Z.eqb_neq in E1. rewrite (IH E1).
      apply Z.eqb_neq in E1. rewrite E1. apply Z.eqb_neq in E1.
      destruct (HasPrefix (String c (s ++ t)) substr) eqn:E2; [|reflexivity].
      change (String c (s ++ t)) with (String c s ++ t) in E2.
      apply HasPrefix_append_inv in E2. destruct E2 as [E2 | [Hl _]]; [congruence|].
      destruct (Index_bounds s substr E1) as [H0 H1].
      unfold len in H1. simpl in Hl. lia.
Qed.

(** X7.  When its description does not contain the opening delimiter of
    the script section, the script that comes back from a built document is
    the script that went in up to its first closing delimiter: the whole
    script when it contains none, and otherwise the bytes before the first
    [scriptEnd], with no error. *)
Theorem script_read_back_is_prefix (description groovyScript : string) :
  Contains description scriptStart = false ->
  extractGroovyScriptFromXML (buildPipelineConfigXML description groovyScript)
  = Ok (if Contains groovyScript scriptEnd
        then take (Z.to_nat (Index groovyScript scriptEnd)) groovyScript
        else groovyScript).
Proof.
  intros Hd. destruct (Contains groovyScript scriptEnd) eqn:Hc.
  2: { apply extractGroovyScript_build; assumption. }
  apply Contains_true in Hc. apply Contains_false in Hd.
  rewrite buildPipelineConfigXML_shape.
  set (rest := scriptEnd ++ docSuffix).
  set (a := (docPrefix ++ descStart) ++ description ++ descEnd ++ docMiddle).
  replace (docPrefix ++ descStart ++ description ++ descEnd ++ docMiddle
             ++ scriptStart ++ groovyScript ++ rest)
    with (a ++ scriptStart ++ groovyScript ++ rest)
    by (unfold a; now rewrite !append_assoc).
  unfold extractGroovyScriptFromXML.
  assert (H1 : Index (a ++ scriptStart ++ groovyScript ++ rest) scriptStart = len a).
  { apply Index_first; [|apply HasPrefix_append].
    unfold a. apply absent_before_append; [vm_compute; reflexivity|].
    apply absent_before_append; [|vm_compute; reflexivity].
    apply absent_before_of_Index; [exact Hd | vm_compute; reflexivity]. }
  rewrite H1. cbv zeta.
  pose proof (len_nonneg a) as Hp.
  destruct (len a =? -1) eqn:E; [lia|]. clear E.
  rewrite slice_from_between.
  rewrite (Index_append_found groovyScript rest scriptEnd Hc).
  destruct (Index_bounds groovyScript scriptEnd Hc) as [H2 H3].
  pose proof (len_nonneg scriptEnd) as H4.
  apply Z.eqb_neq in Hc. rewrite Hc. f_equal.
  unfold slice. fold (slice_from (a ++ scriptStart ++ groovyScript ++ rest)
                                 (len a + len scriptStart)).
  rewrite slice_from_between.
  replace (Index groovyScript scriptEnd + (len a + len scriptStart)
           - (len a + len scriptStart))
    with (Index groovyScript scriptEnd) by lia.
  apply take_append_le. unfold len in *. lia.
Qed.

Lemma script_read_back_is_prefix_witness :
  Contains "nightly" scriptStart = false /\
  Contains "echo a]]></script><sandbox>false</sandbox>]]></script>" scriptEnd = true /\
  Index "echo a]]></script><sandbox>false</sandbox>]]></script>" scriptEnd = 6 /\
  extractGroovyScriptFromXML
    (buildPipelineConfigXML "nightly"
       "echo a]]></script><sandbox>false</sandbox>]]></script>")
  = Ok (if Contains "echo a]]></script><sandbox>false</sandbox>]]></script>" scriptEnd
        then take (Z.to_nat (Index "echo a]]></script><sandbox>false</sandbox>]]></script>"
                              scriptEnd))
                  "echo a]]></script><sandbox>false</sandbox>]]></script>"
        else "echo a]]></script><sandbox>false</sandbox>]]></script>") /\
  take 6 "echo a]]></script><sandbox>false</sandbox>]]></script>" = "echo a".
Proof.
  split; [reflexivity|]. split; [reflexivity|]. split; [reflexivity|].
  split; [|reflexivity].
  exact (script_read_back_is_prefix
           "nightly" "echo a]]></script><sandbox>false</sandbox>]]></script>" eq_refl).
Defined.

(** X8.  Two definitions that satisfy the conditions of the round trip and
    build the same document are the same definition. *)
Theorem buildPipelineConfigXML_injective (d1 s1 d2 s2 : string) :
  Contains s1 scriptEnd = false -> Contains d1 descEnd = false ->
  Contains d1 scriptStart = false ->
  Contains s2 scriptEnd = false -> Contains d2 descEnd = false ->
  Contains d2 scriptStart = false ->
  buildPipelineConfigXML d1 s1 = buildPipelineConfigXML d2 s2 ->
  d1 = d2 /\ s1 = s2.
Proof.
  intros Hs1 Hd1 Hx1 Hs2 Hd2 Hx2 E.
  pose proof (extractDescription_build d1 s1 Hd1) as A1.
  pose proof (extractGroovyScript_build d1 s1 Hs1 Hx1) as B1.
  rewrite E in A1, B1.
  rewrite (extractDescription_build d2 s2 Hd2) in A1.
  rewrite (extractGroovyScript_build d2 s2 Hs2 Hx2) in B1.
  split; congruence.
Qed.

Lemma buildPipelineConfigXML_injective_witness :
  Contains "echo hi" scriptEnd = false /\
  Contains "nightly" descEnd = false /\
  Contains "nightly" scriptStart = false /\
  buildPipelineConfigXML "nightly" "echo hi" = buildPipelineConfigXML "nightly" "echo hi" /\
  "nightly" = "nightly" /\ "echo hi" = "echo hi".
Proof.
  split; [reflexivity|]. split; [reflexivity|]. split; [reflexivity|].
  split; [reflexivity|].
  exact (buildPipelineConfigXML_injective "nightly" "echo hi" "nightly" "echo hi"
           eq_refl eq_refl eq_refl eq_refl eq_refl eq_refl eq_refl).
Defined.

(** * Further properties of the reconciler *)

Lemma HasError_Append_l (diags in_ : Diagnostics) :
  HasError diags = true -> HasError (Diagnostics_Append diags in_) = true.
Proof.
  revert diags. induction in_ as [|d rest IH]; intros diags H; cbn [Diagnostics_Append].
  - exact H.
  - destruct (Diagnostics_Contains diags d); apply IH; [exact H|].
    unfold HasError. rewrite existsb_app. unfold HasError in H. now rewrite H.
Qed.

Lemma HasError_Append_r (diags in_ : Diagnostics) :
  HasError in_ = true -> HasError (Diagnostics_Append diags in_) = true.
Proof.
  revert diags. induction in_ as [|d rest IH]; intros diags H; [discriminate|].
  cbn [Diagnostics_Append]. cbn [HasError existsb] in H.
  destruct (isError d) eqn:Ed.
  - destruct (Diagnostics_Contains diags d) eqn:Ec; apply HasError_Append_l.
    + apply Diagnostics_Contains_In in Ec. now apply (HasError_In _ d).
    + unfold HasError. rewrite existsb_app. cbn [existsb]. rewrite Ed.
      now rewrite orb_true_r.
  - cbn [orb] in H. destruct (Diagnostics_Contains diags d); now apply IH.
Qed.

Section ReconcilerMore.
Import Resource.
Context {W : Type} (R : Remote W).

(** X9.  A create whose three remote calls succeed asks for the existence
    of the planned name, creates the job from the document built from the
    plan, and reads it back, in this order; the record written takes id,
    name and description from what the server reported for the job, the
    script from the plan and the timestamp from the clock, and no
    diagnostic is added. *)
Theorem Create_succeeds (w w1 w2 w3 w4 : W) (diags : Diagnostics)
        (plan : jenkinsPipelineResourceModel) (resp : CreateResponse)
        (created job : Job) (t : string) :
  let jobName := ValueString (Name plan) in
  let configXML :=
    buildPipelineConfigXML (ValueString (Description plan))
                           (ValueString (GroovyScript plan)) in
  HasError (Diagnostics_ (Append diags resp)) = false ->
  serve R (JobExists jobName) w = (Ok false, w1) ->
  serve R (CreateJob configXML jobName) w1 = (Ok created, w2) ->
  serve R (GetJob jobName) w2 = (Ok job, w3) ->
  clock R w3 = (t, w4) ->
  let o := run R (Create (mkCreateRequest (mkData (diags, plan))) resp) w in
  requests o = [JobExists jobName; CreateJob configXML jobName; GetJob jobName] /\
  State (value o) =
    Some {| ID := StringValue (JobResponse_Name (Job_Raw job));
            Name := StringValue (JobResponse_Name (Job_Raw job));
            Description := StringValue (JobResponse_Description (Job_Raw job));
            GroovyScript := StringValue (ValueString (GroovyScript plan));
            LastUpdated := StringValue t |} /\
  Diagnostics_ (value o) = Diagnostics_ (Append diags resp) /\
  world o = w4.
Proof.
  intros jobName configXML Hd He Hc Hg Ht o. subst o jobName configXML.
  unfold Create. cbn [Get CreateRequest_Plan]. rewrite Hd.
  answer_call. answer_call. answer_call. answer_call.
  repeat split; reflexivity.
Qed.

(** X10.  A create whose job was created and whose read-back fails leaves
    the job on the server and no record: the create endpoint was called,
    the error "Jenkins Job Read Error" is reported, and the state container
    is the one that came in. *)
Theorem Create_read_back_fails (w w1 w2 w3 : W) (diags : Diagnostics)
        (plan : jenkinsPipelineResourceModel) (resp : CreateResponse)
        (created : Job) (err : string) :
  let jobName := ValueString (Name plan) in
  let configXML :=
    buildPipelineConfigXML (ValueString (Description plan))
                           (ValueString (GroovyScript plan)) in
  HasError (Diagnostics_ (Append diags resp)) = false ->
  serve R (JobExists jobName) w = (Ok false, w1) ->
  serve R (CreateJob configXML jobName) w1 = (Ok created, w2) ->
  serve R (GetJob jobName) w2 = (Err err, w3) ->
  let o := run R (Create (mkCreateRequest (mkData (diags, plan))) resp) w in
  requests o = [JobExists jobName; CreateJob configXML jobName; GetJob jobName] /\
  In (mkDiagnostic SeverityError "Jenkins Job Read Error"
        (Sprintf "Failed to read created Jenkins Pipeline job '%s': %s" [jobName; err]))
     (Diagnostics_ (value o)) /\
  State (value o) = State resp /\
  world o = w3.
Proof.
  intros jobName configXML Hd He Hc Hg o. subst o jobName configXML.
  unfold Create. cbn [Get CreateRequest_Plan]. rewrite Hd.
  answer_call. answer_call. answer_call.
  cbn [run value calls world requests map request projT1 AddError State Diagnostics_].
  split; [reflexivity|]. split; [apply In_AddError|]. split; reflexivity.
Qed.

(** X11.  When the request container does not decode (its [Get] returns
    an error diagnostic), Create, Read, Update and Delete return at once:
    no remote call, no log line, the state container as it came in, and
    the diagnostics of [Get] appended to the response.  So does the
    data-source read. *)
Theorem decode_error_returns_at_once (w : W) (diags other : Diagnostics)
        (m m' : jenkinsPipelineResourceModel)
        (resp : Response jenkinsPipelineResourceModel)
        (config : DataSource.jenkinsPipelineDataSourceModel)
        (dresp : DataSource.ReadResponse) :
  HasError diags = true ->
  let quiet (o : Outcome W (Response jenkinsPipelineResourceModel))
            (r : Response jenkinsPipelineResourceModel) :=
    o = mkOutcome r w [] [] /\ State r = State resp /\ HasError (Diagnostics_ r) = true in
  quiet (run R (Create (mkCreateRequest (mkData (diags, m))) resp) w)
        (Append diags resp) /\
  quiet (run R (Read (mkReadRequest (mkData (diags, m))) resp) w)
        (Append diags resp) /\
  quiet (run R (Delete (mkDeleteRequest (mkData (diags, m))) resp) w)
        (Append diags resp) /\
  quiet (run R (Update (mkUpdateRequest (mkData (diags, m)) (mkData (other, m'))) resp) w)
        (Append other (Append diags resp)) /\
  quiet (run R (Update (mkUpdateRequest (mkData (other, m)) (mkData (diags, m'))) resp) w)
        (Append diags (Append other resp)) /\
  (run R (DataSource.Read (DataSource.mkReadRequest (mkData (diags, config))) dresp) w
     = mkOutcome (Append diags dresp) w [] [] /\
   HasError (Diagnostics_ (Append diags dresp)) = true).
Proof.
  intros Hd quiet. subst quiet. cbv beta.
  assert (H4 : HasError (Diagnostics_ (Append diags dresp)) = true)
    by (apply HasError_Append_r, Hd).
  unfold DataSource.Read. cbn [Get DataSource.ReadRequest_Config]. rewrite H4.
  assert (H1 : HasError (Diagnostics_ (Append diags resp)) = true)
    by (apply HasError_Append_r, Hd).
  assert (H2 : HasError (Diagnostics_ (Append other (Append diags resp))) = true)
    by (apply HasError_Append_l, H1).
  assert (H3 : HasError (Diagnostics_ (Append diags (Append other resp))) = true)
    by (apply HasError_Append_r, Hd).
  unfold Create, Read, Delete, Update.
  cbn [Get CreateRequest_Plan ReadRequest_State DeleteRequest_State
       UpdateRequest_Plan UpdateRequest_State].
  rewrite H1, H2, H3. cbn [run].
  repeat split; assumption.
Qed.

(** X12.  A read that fetches the document built from a description and a
    script satisfying the conditions of the round trip writes a record
    with exactly that description and that script, the id it had, the id's
    text as name and the clock's timestamp, and adds no diagnostic. *)
Theorem Read_recovers_definition (w w1 w2 w3 : W) (diags : Diagnostics)
        (state : jenkinsPipelineResourceModel) (resp : ReadResponse)
        (description groovyScript t : string) :
  let jobName := ValueString (ID state) in
  HasError (Diagnostics_ (Append diags resp)) = false ->
  Contains groovyScript scriptEnd = false ->
  Contains description descEnd = false ->
  Contains description scriptStart = false ->
  serve R (JobExists jobName) w = (Ok true, w1) ->
  serve R (GetJobConfig jobName) w1
    = (Ok (buildPipelineConfigXML description groovyScript), w2) ->
  clock R w2 = (t, w3) ->
  let o := run R (Read (mkReadRequest (mkData (diags, state))) resp) w in
  State (value o) =
    Some {| ID := ID state;
            Name := StringValue jobName;
            Description := StringValue description;
            GroovyScript := StringValue groovyScript;
            LastUpdated := StringValue t |} /\
  Diagnostics_ (value o) = Diagnostics_ (Append diags resp) /\
  HasError (Diagnostics_ (value o)) = false.
Proof.
  intros jobName Hd Hs Hdd Hds He Hc Ht o.
  destruct (Read_fetched R w w1 w2 w3 diags state resp _ t Hd He Hc Ht) as [Hv _].
  fold jobName in Hv. fold o in Hv. rewrite Hv. clear Hv.
  rewrite (extractGroovyScript_build description groovyScript Hs Hds).
  rewrite (extractDescription_build description groovyScript Hdd).
  cbn [State_Set Append State Diagnostics_ Diagnostics_Append].
  split; [reflexivity|]. split; [reflexivity | exact Hd].
Qed.

(** Every remote call of a create names the planned name, every one of a
    read or a delete the id of the stored state. *)
Lemma Create_requests (w : W) (diags : Diagnostics)
      (plan : jenkinsPipelineResourceModel) (resp : CreateResponse) :
  let jobName := ValueString (Name plan) in
  let configXML :=
    buildPipelineConfigXML (ValueString (Description plan))
                           (ValueString (GroovyScript plan)) in
  forall c, In c (requests (run R (Create (mkCreateRequest (mkData (diags, plan))) resp) w)) ->
            c = JobExists jobName \/ c = CreateJob configXML jobName \/ c = GetJob jobName.
Proof.
  intros jobName configXML c. subst jobName configXML.
  unfold Create. cbn [Get CreateRequest_Plan].
  destruct (HasError (Diagnostics_ (Append diags resp))).
  - cbn [run calls requests map In]. intros [].
  - split_call; [destruct t; [|split_call; [split_call; [split_call|]|]]|];
      cbn [run calls requests map request projT1 In];
      intuition auto.
Qed.

Lemma Read_requests (w : W) (diags : Diagnostics)
      (state : jenkinsPipelineResourceModel) (resp : ReadResponse) :
  let jobName := ValueString (ID state) in
  forall c, In c (requests (run R (Read (mkReadRequest (mkData (diags, state))) resp) w)) ->
            c = JobExists jobName \/ c = GetJobConfig jobName.
Proof.
  intros jobName c. subst jobName.
  unfold Read. cbn [Get ReadRequest_State].
  destruct (HasError (Diagnostics_ (Append diags resp))).
  - cbn [run calls requests map In]. intros [].
  - split_call; [destruct t; cbn [negb]; [split_call|]|].
    + destruct (extractGroovyScriptFromXML t); destruct (extractDescriptionFromXML t);
        split_call; cbn [run calls requests map request projT1 In]; intuition auto.
    + cbn [run calls requests map request projT1 In]; intuition auto.
    + cbn [run calls requests map request projT1 In]; intuition auto.
    + cbn [run calls requests map request projT1 In]; intuition auto.
Qed.

Lemma Delete_requests (w : W) (diags : Diagnostics)
      (state : jenkinsPipelineResourceModel) (resp : DeleteResponse) :
  let jobName := ValueString (ID state) in
  let o := run R (Delete (mkDeleteRequest (mkData (diags, state))) resp) w in
  (forall c, In c (requests o) -> c = JobExists jobName \/ c = DeleteJob jobName) /\
  State (value o) = State resp.
Proof.
  intros jobName o. subst o jobName.
  unfold Delete. cbn [Get DeleteRequest_State].
  destruct (HasError (Diagnostics_ (Append diags resp))).
  - cbn [run value calls requests map In]. split; [intros c []|reflexivity].
  - split_call; [destruct t; cbn [negb]; [split_call|]|];
      cbn [run value calls requests map request projT1 In];
      (split; [intuition auto | reflexivity]).
Qed.

(** X13.  An operation only calls the endpoints of its own kind, and only
    for its own job: a create asks for existence, creates and reads back
    the planned name; a read asks for existence and fetches the document
    of the state's id, so it changes nothing on the server; a delete asks
    for existence and deletes the state's id, and leaves the state
    container as it came in whatever the server answers. *)
Theorem operations_call_their_own_endpoints (w : W) (diags : Diagnostics)
        (m : jenkinsPipelineResourceModel)
        (resp : Response jenkinsPipelineResourceModel) :
  let configXML :=
    buildPipelineConfigXML (ValueString (Description m)) (ValueString (GroovyScript m)) in
  let created := run R (Create (mkCreateRequest (mkData (diags, m))) resp) w in
  let read := run R (Read (mkReadRequest (mkData (diags, m))) resp) w in
  let deleted := run R (Delete (mkDeleteRequest (mkData (diags, m))) resp) w in
  (forall c, In c (requests created) ->
             c = JobExists (ValueString (Name m)) \/
             c = CreateJob configXML (ValueString (Name m)) \/
             c = GetJob (ValueString (Name m))) /\
  (forall c, In c (requests read) ->
             c = JobExists (ValueString (ID m)) \/ c = GetJobConfig (ValueString (ID m))) /\
  (forall c, In c (requests deleted) ->
             c = JobExists (ValueString (ID m)) \/ c = DeleteJob (ValueString (ID m))) /\
  State (value deleted) = State resp.
Proof.
  intros configXML created read deleted. split; [|split].
  - apply Create_requests.
  - apply Read_requests.
  - apply Delete_requests.
Qed.

(** X14.  The identity of a record survives a read and an update: the
    state container after a read is the one that came in, or empty, or a
    record with the id of the stored state and the id's text as name; after
    an update it is the one that came in or a record with the id and name
    of the stored state and the script of the plan. *)
Theorem identity_is_kept (w : W) (pdiags sdiags : Diagnostics)
        (plan state : jenkinsPipelineResourceModel)
        (resp : Response jenkinsPipelineResourceModel) :
  let read := run R (Read (mkReadRequest (mkData (sdiags, state))) resp) w in
  let updated :=
    run R (Update (mkUpdateRequest (mkData (pdiags, plan)) (mkData (sdiags, state))) resp) w in
  (State (value read) = State resp \/
   State (value read) = None \/
   exists m, State (value read) = Some m /\
             ID m = ID state /\ Name m = StringValue (ValueString (ID state))) /\
  (State (value updated) = State resp \/
   exists m, State (value updated) = Some m /\
             ID m = ID state /\ Name m = Name state /\
             GroovyScript m = StringValue (ValueString (GroovyScript plan))).
Proof.
  intros read updated. subst read updated. split.
  - unfold Read. cbn [Get ReadRequest_State].
    destruct (HasError (Diagnostics_ (Append sdiags resp))); [now left|].
    split_call; [destruct t; cbn [negb]; [split_call|]|];
      try (left; reflexivity).
    + destruct (extractGroovyScriptFromXML t); destruct (extractDescriptionFromXML t);
        split_call; right; right; eexists; repeat split.
    + right. left. reflexivity.
  - unfold Update. cbn [Get UpdateRequest_Plan UpdateRequest_State].
    destruct (HasError (Diagnostics_ (Append sdiags (Append pdiags resp)))); [now left|].
    split_call; [split_call; [split_call|]|]; try (left; reflexivity).
    right. eexists. repeat split.
Qed.

End ReconcilerMore.

(** * Further properties of the data-source reader *)

Section ReaderMore.
Import DataSource.
Context {W : Type} (R : Remote W).

(** The identifier a data-source read looks up. *)
Lemma DataSource_identifier (config : jenkinsPipelineDataSourceModel) :
  supplied (ID config) || supplied (Name config) = true ->
  (if negb (IsNull (ID config)) && negb (IsUnknown (ID config))
   then Some (ValueString (ID config))
   else if negb (IsNull (Name config)) && negb (IsUnknown (Name config))
        then Some (ValueString (Name config)) else None)
  = Some (if supplied (ID config) then ValueString (ID config)
          else ValueString (Name config)).
Proof.
  unfold supplied. intros Hs.
  destruct (negb (IsNull (ID config)) && negb (IsUnknown (ID config))); [reflexivity|].
  cbn [orb] in Hs. now rewrite Hs.
Qed.

(** The record a data-source read writes for [job] and [configXML], with
    the status and duration of the last build. *)
Lemma DataSource_no_build (w w1 w2 : W) (diags : Diagnostics)
      (config : jenkinsPipelineDataSourceModel) (resp : ReadResponse)
      (job : Job) (configXML : string) :
  let jobName :=
    if supplied (ID config) then ValueString (ID config) else ValueString (Name config) in
  HasError (Diagnostics_ (Append diags resp)) = false ->
  supplied (ID config) || supplied (Name config) = true ->
  serve R (GetJob jobName) w = (Ok job, w1) ->
  serve R (Job_GetConfig job) w1 = (Ok configXML, w2) ->
  Number (LastCompletedBuild (Job_Raw job)) <= 0 ->
  run R (Read (mkReadRequest (mkData (diags, config))) resp) w =
  mkOutcome
    (State_Set
       {| ID := StringValue (JobResponse_Name (Job_Raw job));
          Name := StringValue (JobResponse_Name (Job_Raw job));
          Description := StringValue (orEmpty (extractDescriptionFromXML configXML));
          GroovyScript := StringValue (orEmpty (extractGroovyScriptFromXML configXML));
          LastBuildStatus := StringValue "";
          LastBuildDuration := Int64Value 0 |}
       (afterExtraction jobName configXML (Append diags resp)))
    w2
    [existT _ (GetJob jobName) (Ok job); existT _ (Job_GetConfig job) (Ok configXML)]
    [Sprintf "[INFO] Jenkins Pipeline data source for '%s' read successfully." [jobName]].
Proof.
  intros jobName Hd Hs Hg Hc Hn. pose proof (DataSource_identifier config Hs) as Hj.
  fold jobName in Hj.
  unfold Read. cbn [Get ReadRequest_Config]. rewrite Hd, Hj.
  answer_call. answer_call.
  assert (Hz : (Number (LastCompletedBuild (Job_Raw job)) >? 0) = false)
    by (rewrite Z.gtb_ltb; apply Z.ltb_ge; exact Hn).
  unfold afterExtraction, orEmpty.
  destruct (extractGroovyScriptFromXML configXML);
    destruct (extractDescriptionFromXML configXML);
    rewrite Hz; reflexivity.
Qed.

Lemma DataSource_build_fetched (w w1 w2 w3 : W) (diags : Diagnostics)
      (config : jenkinsPipelineDataSourceModel) (resp : ReadResponse)
      (job : Job) (configXML : string) (lastBuild : Build) :
  let jobName :=
    if supplied (ID config) then ValueString (ID config) else ValueString (Name config) in
  HasError (Diagnostics_ (Append diags resp)) = false ->
  supplied (ID config) || supplied (Name config) = true ->
  serve R (GetJob jobName) w = (Ok job, w1) ->
  serve R (Job_GetConfig job) w1 = (Ok configXML, w2) ->
  0 < Number (LastCompletedBuild (Job_Raw job)) ->
  serve R (Job_GetLastCompletedBuild job) w2 = (Ok lastBuild, w3) ->
  run R (Read (mkReadRequest (mkData (diags, config))) resp) w =
  mkOutcome
    (State_Set
       {| ID := StringValue (JobResponse_Name (Job_Raw job));
          Name := StringValue (JobResponse_Name (Job_Raw job));
          Description := StringValue (orEmpty (extractDescriptionFromXML configXML));
          GroovyScript := StringValue (orEmpty (extractGroovyScriptFromXML configXML));
          LastBuildStatus := StringValue (Result (Build_Raw lastBuild));
          LastBuildDuration :=
            Int64Value (int64_of_float64 (Duration (Build_Raw lastBuild))) |}
       (afterExtraction jobName configXML (Append diags resp)))
    w3
    [existT _ (GetJob jobName) (Ok job); existT _ (Job_GetConfig job) (Ok configXML);
     existT _ (Job_GetLastCompletedBuild job) (Ok lastBuild)]
    [Sprintf "[INFO] Jenkins Pipeline data source for '%s' read successfully." [jobName]].
Proof.
  intros jobName Hd Hs Hg Hc Hn Hb. pose proof (DataSource_identifier config Hs) as Hj.
  fold jobName in Hj.
  unfold Read. cbn [Get ReadRequest_Config]. rewrite Hd, Hj.
  answer_call. answer_call.
  assert (Hz : (Number (LastCompletedBuild (Job_Raw job)) >? 0) = true)
    by (rewrite Z.gtb_ltb; apply Z.ltb_lt; exact Hn).
  unfold afterExtraction, orEmpty.
  destruct (extractGroovyScriptFromXML configXML);
    destruct (extractDescriptionFromXML configXML);
    rewrite Hz; answer_call; reflexivity.
Qed.

Lemma DataSource_build_failed (w w1 w2 w3 : W) (diags : Diagnostics)
      (config : jenkinsPipelineDataSourceModel) (resp : ReadResponse)
      (job : Job) (configXML err : string) :
  let jobName :=
    if supplied (ID config) then ValueString (ID config) else ValueString (Name config) in
  HasError (Diagnostics_ (Append diags resp)) = false ->
  supplied (ID config) || supplied (Name config) = true ->
  serve R (GetJob jobName) w = (Ok job, w1) ->
  serve R (Job_GetConfig job) w1 = (Ok configXML, w2) ->
  0 < Number (LastCompletedBuild (Job_Raw job)) ->
  serve R (Job_GetLastCompletedBuild job) w2 = (Err err, w3) ->
  run R (Read (mkReadRequest (mkData (diags, config))) resp) w =
  mkOutcome
    (State_Set
       {| ID := StringValue (JobResponse_Name (Job_Raw job));
          Name := StringValue (JobResponse_Name (Job_Raw job));
          Description := StringValue (orEmpty (extractDescriptionFromXML configXML));
          GroovyScript := StringValue (orEmpty (extractGroovyScriptFromXML configXML));
          LastBuildStatus := StringValue "";
          LastBuildDuration := Int64Value 0 |}
       (afterExtraction jobName configXML (Append diags resp)))
    w3
    [existT _ (GetJob jobName) (Ok job); existT _ (Job_GetConfig job) (Ok configXML);
     existT _ (Job_GetLastCompletedBuild job) (Err err)]
    [Sprintf "[WARN] Could not get last completed build details for '%s': %s" [jobName; err];
     Sprintf "[INFO] Jenkins Pipeline data source for '%s' read successfully." [jobName]].
Proof.
  intros jobName Hd Hs Hg Hc Hn Hb. pose proof (DataSource_identifier config Hs) as Hj.
  fold jobName in Hj.
  unfold Read. cbn [Get ReadRequest_Config]. rewrite Hd, Hj.
  answer_call. answer_call.
  assert (Hz : (Number (LastCompletedBuild (Job_Raw job)) >? 0) = true)
    by (rewrite Z.gtb_ltb; apply Z.ltb_lt; exact Hn).
  unfold afterExtraction, orEmpty.
  destruct (extractGroovyScriptFromXML configXML);
    destruct (extractDescriptionFromXML configXML);
    rewrite Hz; answer_call; reflexivity.
Qed.

(** The extraction steps add nothing when both extractors succeed, and
    keep what was there. *)
Lemma afterExtraction_clean {M : Type} (jobName configXML g d : string) (resp : Response M) :
  extractGroovyScriptFromXML configXML = Ok g ->
  extractDescriptionFromXML configXML = Ok d ->
  afterExtraction jobName configXML resp = resp.
Proof. intros Hg Hd. unfold afterExtraction. now rewrite Hg, Hd. Qed.

Lemma afterExtraction_State {M : Type} (jobName configXML : string) (resp : Response M) :
  State (afterExtraction jobName configXML resp) = State resp.
Proof.
  unfold afterExtraction.
  destruct (extractGroovyScriptFromXML configXML);
    destruct (extractDescriptionFromXML configXML); reflexivity.
Qed.

(** The last-build fetch adds no diagnostic: the diagnostics of a
    data-source read that fetched the job and its document are those of
    the extraction steps. *)
Lemma DataSource_diagnostics (w w1 w2 : W) (diags : Diagnostics)
      (config : jenkinsPipelineDataSourceModel) (resp : ReadResponse)
      (job : Job) (configXML : string) :
  let jobName :=
    if supplied (ID config) then ValueString (ID config) else ValueString (Name config) in
  HasError (Diagnostics_ (Append diags resp)) = false ->
  supplied (ID config) || supplied (Name config) = true ->
  serve R (GetJob jobName) w = (Ok job, w1) ->
  serve R (Job_GetConfig job) w1 = (Ok configXML, w2) ->
  let o := run R (Read (mkReadRequest (mkData (diags, config))) resp) w in
  Diagnostics_ (value o)
  = Diagnostics_ (afterExtraction jobName configXML (Append diags resp)) /\
  exists m,
    State (value o) = Some m /\
    Description m = StringValue (orEmpty (extractDescriptionFromXML configXML)) /\
    GroovyScript m = StringValue (orEmpty (extractGroovyScriptFromXML configXML)).
Proof.
  intros jobName Hd Hs Hg Hc o. subst o.
  destruct (Z.le_gt_cases (Number (LastCompletedBuild (Job_Raw job))) 0) as [Hn | Hn].
  - rewrite (DataSource_no_build w w1 w2 diags config resp job configXML Hd Hs Hg Hc Hn).
    split; [reflexivity|]. eexists. repeat split.
  - destruct (serve R (Job_GetLastCompletedBuild job) w2) as [r w3] eqn:Hb.
    simpl in r. destruct r as [b | e].
    + rewrite (DataSource_build_fetched w w1 w2 w3 diags config resp job configXML b
                 Hd Hs Hg Hc Hn Hb).
      split; [reflexivity|]. eexists. repeat split.
    + rewrite (DataSource_build_failed w w1 w2 w3 diags config resp job configXML e
                 Hd Hs Hg Hc Hn Hb).
      split; [reflexivity|]. eexists. repeat split.
Qed.

(** X15.  With [id] not supplied and [name] supplied, a data-source read
    looks the job up by [name]: its first call is [GetJob] on the name, and
    it makes no [GetJob] on anything else. *)
Theorem DataSource_name_fallback (w : W) (diags : Diagnostics)
        (config : jenkinsPipelineDataSourceModel) (resp : ReadResponse) :
  HasError (Diagnostics_ (Append diags resp)) = false ->
  supplied (ID config) = false ->
  supplied (Name config) = true ->
  let o := run R (Read (mkReadRequest (mkData (diags, config))) resp) w in
  hd_error (requests o) = Some (GetJob (ValueString (Name config))) /\
  (forall n, In (GetJob n) (requests o) -> n = ValueString (Name config)).
Proof.
  intros Hd Hi Hn o.
  assert (Hs : supplied (ID config) || supplied (Name config) = true)
    by (rewrite Hn; apply orb_true_r).
  pose proof (DataSource_after_identifier R w diags config resp Hd Hs) as Ha.
  cbv zeta in Ha. rewrite Hi in Ha. destruct Ha as [_ [Hh Hg]].
  split; assumption.
Qed.

(** X16.  A data-source read whose document fetch fails stops there: the
    error "Jenkins Job Config Read Error" is reported, no state is written
    and the last build is not asked for. *)
Theorem DataSource_config_fetch_fails (w w1 w2 : W) (diags : Diagnostics)
        (config : jenkinsPipelineDataSourceModel) (resp : ReadResponse)
        (job : Job) (err : string) :
  let jobName :=
    if supplied (ID config) then ValueString (ID config) else ValueString (Name config) in
  HasError (Diagnostics_ (Append diags resp)) = false ->
  supplied (ID config) || supplied (Name config) = true ->
  serve R (GetJob jobName) w = (Ok job, w1) ->
  serve R (Job_GetConfig job) w1 = (Err err, w2) ->
  let o := run R (Read (mkReadRequest (mkData (diags, config))) resp) w in
  requests o = [GetJob jobName; Job_GetConfig job] /\
  In (mkDiagnostic SeverityError "Jenkins Job Config Read Error"
        (Sprintf "Failed to read Jenkins Pipeline job config for '%s': %s" [jobName; err]))
     (Diagnostics_ (value o)) /\
  HasError (Diagnostics_ (value o)) = true /\
  State (value o) = State resp.
Proof.
  intros jobName Hd Hs Hg Hc o. subst o.
  pose proof (DataSource_identifier config Hs) as Hj. fold jobName in Hj.
  unfold Read. cbn [Get ReadRequest_Config]. rewrite Hd, Hj.
  answer_call. answer_call.
  cbn [run value calls requests map request projT1 AddError State Diagnostics_].
  split; [reflexivity|]. split; [apply In_AddError|].
  split; [apply HasError_AddError | reflexivity].
Qed.

(** X17.  For a job that reports no completed build (build number not
    above zero) the last build is not asked for, and the record carries the
    empty status and the duration zero. *)
Theorem DataSource_without_build (w w1 w2 : W) (diags : Diagnostics)
        (config : jenkinsPipelineDataSourceModel) (resp : ReadResponse)
        (job : Job) (configXML : string) :
  let jobName :=
    if supplied (ID config) then ValueString (ID config) else ValueString (Name config) in
  HasError (Diagnostics_ (Append diags resp)) = false ->
  supplied (ID config) || supplied (Name config) = true ->
  serve R (GetJob jobName) w = (Ok job, w1) ->
  serve R (Job_GetConfig job) w1 = (Ok configXML, w2) ->
  Number (LastCompletedBuild (Job_Raw job)) <= 0 ->
  let o := run R (Read (mkReadRequest (mkData (diags, config))) resp) w in
  requests o = [GetJob jobName; Job_GetConfig job] /\
  exists m,
    State (value o) = Some m /\
    LastBuildStatus m = StringValue "" /\
    LastBuildDuration m = Int64Value 0.
Proof.
  intros jobName Hd Hs Hg Hc Hn o. subst o.
  rewrite (DataSource_no_build w w1 w2 diags config resp job configXML Hd Hs Hg Hc Hn).
  split; [reflexivity|]. eexists. repeat split.
Qed.

(** X18.  For a job that reports a completed build whose fetch succeeds,
    the record carries the result of that build as status and its duration
    converted to an integer. *)
Theorem DataSource_with_build (w w1 w2 w3 : W) (diags : Diagnostics)
        (config : jenkinsPipelineDataSourceModel) (resp : ReadResponse)
        (job : Job) (configXML : string) (lastBuild : Build) :
  let jobName :=
    if supplied (ID config) then ValueString (ID config) else ValueString (Name config) in
  HasError (Diagnostics_ (Append diags resp)) = false ->
  supplied (ID config) || supplied (Name config) = true ->
  serve R (GetJob jobName) w = (Ok job, w1) ->
  serve R (Job_GetConfig job) w1 = (Ok configXML, w2) ->
  0 < Number (LastCompletedBuild (Job_Raw job)) ->
  serve R (Job_GetLastCompletedBuild job) w2 = (Ok lastBuild, w3) ->
  let o := run R (Read (mkReadRequest (mkData (diags, config))) resp) w in
  requests o = [GetJob jobName; Job_GetConfig job; Job_GetLastCompletedBuild job] /\
  exists m,
    State (value o) = Some m /\
    LastBuildStatus m = StringValue (Result (Build_Raw lastBuild)) /\
    LastBuildDuration m = Int64Value (int64_of_float64 (Duration (Build_Raw lastBuild))).
Proof.
  intros jobName Hd Hs Hg Hc Hn Hb o. subst o.
  rewrite (DataSource_build_fetched w w1 w2 w3 diags config resp job configXML lastBuild
             Hd Hs Hg Hc Hn Hb).
  split; [reflexivity|]. eexists. repeat split.
Qed.

(** X19.  A failed fetch of the last build does not fail the read: the
    record is written with the empty status and the duration zero, the
    failure adds no diagnostic (the diagnostics are those of the extraction
    steps, none when both extractors succeed), and a warning line is
    logged. *)
Theorem DataSource_build_failure_tolerated (w w1 w2 w3 : W) (diags : Diagnostics)
        (config : jenkinsPipelineDataSourceModel) (resp : ReadResponse)
        (job : Job) (configXML err : string) :
  let jobName :=
    if supplied (ID config) then ValueString (ID config) else ValueString (Name config) in
  HasError (Diagnostics_ (Append diags resp)) = false ->
  supplied (ID config) || supplied (Name config) = true ->
  serve R (GetJob jobName) w = (Ok job, w1) ->
  serve R (Job_GetConfig job) w1 = (Ok configXML, w2) ->
  0 < Number (LastCompletedBuild (Job_Raw job)) ->
  serve R (Job_GetLastCompletedBuild job) w2 = (Err err, w3) ->
  let o := run R (Read (mkReadRequest (mkData (diags, config))) resp) w in
  (exists m,
     State (value o) = Some m /\
     LastBuildStatus m = StringValue "" /\
     LastBuildDuration m = Int64Value 0) /\
  Diagnostics_ (value o)
    = Diagnostics_ (afterExtraction jobName configXML (Append diags resp)) /\
  (is_ok (extractGroovyScriptFromXML configXML) = true ->
   is_ok (extractDescriptionFromXML configXML) = true ->
   HasError (Diagnostics_ (value o)) = false) /\
  In (Sprintf "[WARN] Could not get last completed build details for '%s': %s"
        [jobName; err])
     (logged o).
Proof.
  intros jobName Hd Hs Hg Hc Hn Hb o. subst o.
  rewrite (DataSource_build_failed w w1 w2 w3 diags config resp job configXML err
             Hd Hs Hg Hc Hn Hb).
  cbn [value logged State_Set Append State Diagnostics_ Diagnostics_Append].
  split; [eexists; repeat split|]. split; [reflexivity|]. split; [|now left].
  intros Hg' Hd'.
  destruct (extractGroovyScriptFromXML configXML) as [g|] eqn:Eg; [|discriminate].
  destruct (extractDescriptionFromXML configXML) as [d|] eqn:Ed; [|discriminate].
  rewrite (afterExtraction_clean jobName configXML g d _ Eg Ed). exact Hd.
Qed.

(** X20.  A data-source read that fetched the job and its document writes
    a record whatever the extractors return: a field whose extraction
    failed is the empty string, and each failed extraction leaves a
    diagnostic of severity error, so that the response reports an error. *)
Theorem DataSource_partial_decode (w w1 w2 : W) (diags : Diagnostics)
        (config : jenkinsPipelineDataSourceModel) (resp : ReadResponse)
        (job : Job) (configXML : string) :
  let jobName :=
    if supplied (ID config) then ValueString (ID config) else ValueString (Name config) in
  HasError (Diagnostics_ (Append diags resp)) = false ->
  supplied (ID config) || supplied (Name config) = true ->
  serve R (GetJob jobName) w = (Ok job, w1) ->
  serve R (Job_GetConfig job) w1 = (Ok configXML, w2) ->
  let o := run R (Read (mkReadRequest (mkData (diags, config))) resp) w in
  (exists m,
     State (value o) = Some m /\
     Description m = StringValue (orEmpty (extractDescriptionFromXML configXML)) /\
     GroovyScript m = StringValue (orEmpty (extractGroovyScriptFromXML configXML))) /\
  (forall err, extractGroovyScriptFromXML configXML = Err err ->
     In (mkDiagnostic SeverityError "Groovy Script Extraction Error"
           (Sprintf "Failed to extract Groovy script from job '%s' config: %s" [jobName; err]))
        (Diagnostics_ (value o)) /\
     HasError (Diagnostics_ (value o)) = true) /\
  (forall err, extractDescriptionFromXML configXML = Err err ->
     In (mkDiagnostic SeverityError "Description Extraction Error"
           (Sprintf "Failed to extract description from job '%s' config: %s" [jobName; err]))
        (Diagnostics_ (value o)) /\
     HasError (Diagnostics_ (value o)) = true).
Proof.
  intros jobName Hd Hs Hg Hc o.
  destruct (DataSource_diagnostics w w1 w2 diags config resp job configXML Hd Hs Hg Hc)
    as [Hdiag Hm].
  fold jobName in Hdiag. fold o in Hdiag, Hm.
  split; [exact Hm|]. rewrite Hdiag. unfold afterExtraction.
  split; intros err Hx; rewrite Hx.
  - assert (Hi : In (mkDiagnostic SeverityError "Groovy Script Extraction Error"
                       (Sprintf "Failed to extract Groovy script from job '%s' config: %s"
                          [jobName; err]))
                    (Diagnostics_
                       (match extractDescriptionFromXML configXML with
                        | Err e =>
                            AddError "Description Extraction Error"
                              (Sprintf "Failed to extract description from job '%s' config: %s"
                                 [jobName; e])
                              (AddError "Groovy Script Extraction Error"
                                 (Sprintf "Failed to extract Groovy script from job '%s' config: %s"
                                    [jobName; err]) (Append diags resp))
                        | Ok _ =>
                            AddError "Groovy Script Extraction Error"
                              (Sprintf "Failed to extract Groovy script from job '%s' config: %s"
                                 [jobName; err]) (Append diags resp)
                        end))).
    { destruct (extractDescriptionFromXML configXML); cbn [AddError Diagnostics_];
        [|apply AddError_mono]; apply In_AddError. }
    split; [exact Hi|]. eapply HasError_In; [exact Hi | reflexivity].
  - cbn [AddError Diagnostics_]. split; [apply In_AddError | apply HasError_AddError].
Qed.

(** X21.  A data-source read that fetches the document built from a
    description and a script satisfying the conditions of the round trip
    reports exactly that description and that script, and no error. *)
Theorem DataSource_recovers_definition (w w1 w2 : W) (diags : Diagnostics)
        (config : jenkinsPipelineDataSourceModel) (resp : ReadResponse)
        (job : Job) (description groovyScript : string) :
  let jobName :=
    if supplied (ID config) then ValueString (ID config) else ValueString (Name config) in
  HasError (Diagnostics_ (Append diags resp)) = false ->
  supplied (ID config) || supplied (Name config) = true ->
  Contains groovyScript scriptEnd = false ->
  Contains description descEnd = false ->
  Contains description scriptStart = false ->
  serve R (GetJob jobName) w = (Ok job, w1) ->
  serve R (Job_GetConfig job) w1
    = (Ok (buildPipelineConfigXML description groovyScript), w2) ->
  let o := run R (Read (mkReadRequest (mkData (diags, config))) resp) w in
  (exists m,
     State (value o) = Some m /\
     Description m = StringValue description /\
     GroovyScript m = StringValue groovyScript) /\
  HasError (Diagnostics_ (value o)) = false.
Proof.
  intros jobName Hd Hs Hgs Hdd Hds Hg Hc o.
  destruct (DataSource_diagnostics w w1 w2 diags config resp job _ Hd Hs Hg Hc)
    as [Hdiag Hm].
  fold jobName in Hdiag. fold o in Hdiag, Hm.
  pose proof (extractGroovyScript_build description groovyScript Hgs Hds) as Eg.
  pose proof (extractDescription_build description groovyScript Hdd) as Ed.
  rewrite Eg, Ed in Hm. split; [exact Hm|].
  rewrite Hdiag, (afterExtraction_clean jobName _ _ _ _ Eg Ed). exact Hd.
Qed.

(** X22.  A data-source read changes nothing on the server: whatever its
    input and whatever the server answers, it makes at most three calls,
    none of them to the create, update or delete endpoint. *)
Theorem DataSource_is_read_only (w : W) (req : ReadRequest) (resp : ReadResponse) :
  let o := run R (Read req resp) w in
  forallb readOnly (requests o) = true /\ (List.length (requests o) <= 3)%nat.
Proof.
  intros o. subst o. unfold Read.
  destruct (Get (ReadRequest_Config req)) as [diags config].
  destruct (HasError (Diagnostics_ (Append diags resp)));
    [split; [reflexivity | cbn; lia]|].
  destruct (if negb (IsNull (ID config)) && negb (IsUnknown (ID config))
            then Some (ValueString (ID config))
            else if negb (IsNull (Name config)) && negb (IsUnknown (Name config))
                 then Some (ValueString (Name config)) else None) as [jobName|];
    [|split; [reflexivity | cbn; lia]].
  split_call.
  - split_call.
    + destruct (extractGroovyScriptFromXML t0); destruct (extractDescriptionFromXML t0);
        (destruct (Number (LastCompletedBuild (Job_Raw t)) >? 0); [split_call|]);
        (split; [reflexivity | cbn; lia]).
    + split; [reflexivity | cbn; lia].
  - destruct (Contains e "404" || Contains e "no such job");
      (split; [reflexivity | cbn; lia]).
Qed.

End ReaderMore.

(** * The further properties at sample inputs *)

Lemma extractGroovyScript_sound_witness :
  extractGroovyScriptFromXML (buildPipelineConfigXML "nightly build" "echo hi")
    = Ok "echo hi" /\
  exists pre post,
    buildPipelineConfigXML "nightly build" "echo hi"
      = pre ++ scriptStart ++ "echo hi" ++ scriptEnd ++ post /\
    Index (buildPipelineConfigXML "nightly build" "echo hi") scriptStart = len pre /\
    Contains "echo hi" scriptEnd = false.
Proof.
  split; [reflexivity|].
  exact (extractGroovyScript_sound (buildPipelineConfigXML "nightly build" "echo hi")
           "echo hi" eq_refl).
Defined.

Lemma extractDescription_sound_witness :
  extractDescriptionFromXML "<a><description>x</description></description>" = Ok "x" /\
  exists pre post,
    "<a><description>x</description></description>"
      = pre ++ descStart ++ "x" ++ descEnd ++ post /\
    Index "<a><description>x</description></description>" descStart = len pre /\
    Contains "x" descEnd = false.
Proof.
  split; [reflexivity|].
  exact (extractDescription_sound "<a><description>x</description></description>"
           "x" eq_refl).
Defined.

Lemma Create_succeeds_witness :
  let R := scripted (answers false "" sampleJob) sampleTime in
  let resp : Resource.CreateResponse := mkResponse [] None in
  let configXML := buildPipelineConfigXML "nightly build" "echo hi" in
  let o := run R (Resource.Create (Resource.mkCreateRequest (mkData ([], samplePlan))) resp)
               tt in
  HasError (Diagnostics_ (Append [] resp)) = false /\
  serve R (JobExists "renamed") tt = (Ok false, tt) /\
  serve R (CreateJob configXML "renamed") tt = (Ok sampleJob, tt) /\
  serve R (GetJob "renamed") tt = (Ok sampleJob, tt) /\
  clock R tt = (sampleTime, tt) /\
  requests o = [JobExists "renamed"; CreateJob configXML "renamed"; GetJob "renamed"] /\
  State (value o) =
    Some {| Resource.ID := StringValue "nightly";
            Resource.Name := StringValue "nightly";
            Resource.Description := StringValue "nightly build";
            Resource.GroovyScript := StringValue "echo hi";
            Resource.LastUpdated := StringValue sampleTime |} /\
  Diagnostics_ (value o) = [] /\
  world o = tt.
Proof.
  split; [reflexivity|]. split; [reflexivity|]. split; [reflexivity|].
  split; [reflexivity|]. split; [reflexivity|].
  apply (Create_succeeds (scripted (answers false "" sampleJob) sampleTime)
           tt tt tt tt tt [] samplePlan (mkResponse [] None) sampleJob sampleJob sampleTime);
    reflexivity.
Defined.

Lemma Create_read_back_fails_witness :
  let R := scripted (override isGetJob (unreachable "503") (answers false "" sampleJob))
                    sampleTime in
  let resp : Resource.CreateResponse := mkResponse [] None in
  let configXML := buildPipelineConfigXML "nightly build" "echo hi" in
  let o := run R (Resource.Create (Resource.mkCreateRequest (mkData ([], samplePlan))) resp)
               tt in
  HasError (Diagnostics_ (Append [] resp)) = false /\
  serve R (JobExists "renamed") tt = (Ok false, tt) /\
  serve R (CreateJob configXML "renamed") tt = (Ok sampleJob, tt) /\
  serve R (GetJob "renamed") tt = (Err "503", tt) /\
  requests o = [JobExists "renamed"; CreateJob configXML "renamed"; GetJob "renamed"] /\
  In (mkDiagnostic SeverityError "Jenkins Job Read Error"
        "Failed to read created Jenkins Pipeline job 'renamed': 503")
     (Diagnostics_ (value o)) /\
  State (value o) = None /\
  world o = tt.
Proof.
  split; [reflexivity|]. split; [reflexivity|]. split; [reflexivity|].
  split; [reflexivity|].
  apply (Create_read_back_fails
           (scripted (override isGetJob (unreachable "503") (answers false "" sampleJob))
                     sampleTime)
           tt tt tt tt [] samplePlan (mkResponse [] None) sampleJob "503");
    reflexivity.
Defined.

Lemma decode_error_returns_at_once_witness :
  let R := scripted (answers true "" sampleJob) sampleTime in
  let resp : Resource.ReadResponse := mkResponse [] (Some sampleState) in
  HasError decodeError = true /\
  run R (Resource.Read (Resource.mkReadRequest (mkData (decodeError, sampleState))) resp) tt
    = mkOutcome (Append decodeError resp) tt [] [] /\
  State (Append decodeError resp) = Some sampleState /\
  HasError (Diagnostics_ (Append decodeError resp)) = true.
Proof.
  split; [reflexivity|].
  destruct (decode_error_returns_at_once
              (scripted (answers true "" sampleJob) sampleTime)
              tt decodeError [] sampleState samplePlan
              (mkResponse [] (Some sampleState))
              (sampleConfig StringNull StringNull) (mkResponse [] None) eq_refl)
    as [_ [Hr _]].
  exact Hr.
Defined.

Lemma Read_recovers_definition_witness :
  let R := scripted (answers true (buildPipelineConfigXML "nightly build" "echo hi")
                       sampleJob) sampleTime in
  let resp : Resource.ReadResponse := mkResponse [] (Some sampleState) in
  let o := run R (Resource.Read (Resource.mkReadRequest (mkData ([], sampleState))) resp) tt in
  HasError (Diagnostics_ (Append [] resp)) = false /\
  Contains "echo hi" scriptEnd = false /\
  Contains "nightly build" descEnd = false /\
  Contains "nightly build" scriptStart = false /\
  serve R (JobExists "nightly") tt = (Ok true, tt) /\
  serve R (GetJobConfig "nightly") tt
    = (Ok (buildPipelineConfigXML "nightly build" "echo hi"), tt) /\
  clock R tt = (sampleTime, tt) /\
  State (value o) =
    Some {| Resource.ID := StringValue "nightly";
            Resource.Name := StringValue "nightly";
            Resource.Description := StringValue "nightly build";
            Resource.GroovyScript := StringValue "echo hi";
            Resource.LastUpdated := StringValue sampleTime |} /\
  Diagnostics_ (value o) = [] /\
  HasError (Diagnostics_ (value o)) = false.
Proof.
  split; [reflexivity|]. split; [reflexivity|]. split; [reflexivity|].
  split; [reflexivity|]. split; [reflexivity|]. split; [reflexivity|].
  split; [reflexivity|].
  apply (Read_recovers_definition
           (scripted (answers true (buildPipelineConfigXML "nightly build" "echo hi")
                        sampleJob) sampleTime)
           tt tt tt tt [] sampleState (mkResponse [] (Some sampleState))
           "nightly build" "echo hi" sampleTime);
    reflexivity.
Defined.

Lemma DataSource_name_fallback_witness :
  let R := scripted (answers true scriptOnly sampleJob) sampleTime in
  let resp : DataSource.ReadResponse := mkResponse [] None in
  let config := sampleConfig StringUnknown (StringValue "by-name") in
  let o := run R (DataSource.Read (DataSource.mkReadRequest (mkData ([], config))) resp) tt in
  HasError (Diagnostics_ (Append [] resp)) = false /\
  supplied (DataSource.ID config) = false /\
  supplied (DataSource.Name config) = true /\
  hd_error (requests o) = Some (GetJob "by-name") /\
  (forall n, In (GetJob n) (requests o) -> n = "by-name").
Proof.
  split; [reflexivity|]. split; [reflexivity|]. split; [reflexivity|].
  apply (DataSource_name_fallback (scripted (answers true scriptOnly sampleJob) sampleTime)
           tt [] (sampleConfig StringUnknown (StringValue "by-name")) (mkResponse [] None));
    reflexivity.
Defined.

Lemma DataSource_config_fetch_fails_witness :
  let R := scripted (override isJobGetConfig (unreachable "503")
                       (answers true "" builtJob)) sampleTime in
  let resp : DataSource.ReadResponse := mkResponse [] None in
  let config := sampleConfig (StringValue "nightly") StringNull in
  let o := run R (DataSource.Read (DataSource.mkReadRequest (mkData ([], config))) resp) tt in
  HasError (Diagnostics_ (Append [] resp)) = false /\
  supplied (DataSource.ID config) || supplied (DataSource.Name config) = true /\
  serve R (GetJob "nightly") tt = (Ok builtJob, tt) /\
  serve R (Job_GetConfig builtJob) tt = (Err "503", tt) /\
  requests o = [GetJob "nightly"; Job_GetConfig builtJob] /\
  In (mkDiagnostic SeverityError "Jenkins Job Config Read Error"
        "Failed to read Jenkins Pipeline job config for 'nightly': 503")
     (Diagnostics_ (value o)) /\
  HasError (Diagnostics_ (value o)) = true /\
  State (value o) = None.
Proof.
  split; [reflexivity|]. split; [reflexivity|]. split; [reflexivity|].
  split; [reflexivity|].
  apply (DataSource_config_fetch_fails
           (scripted (override isJobGetConfig (unreachable "503")
                        (answers true "" builtJob)) sampleTime)
           tt tt tt [] (sampleConfig (StringValue "nightly") StringNull)
           (mkResponse [] None) builtJob "503");
    reflexivity.
Defined.

Lemma DataSource_without_build_witness :
  let xml := buildPipelineConfigXML "nightly build" "echo hi" in
  let R := scripted (answers true xml sampleJob) sampleTime in
  let resp : DataSource.ReadResponse := mkResponse [] None in
  let config := sampleConfig (StringValue "nightly") StringNull in
  let o := run R (DataSource.Read (DataSource.mkReadRequest (mkData ([], config))) resp) tt in
  HasError (Diagnostics_ (Append [] resp)) = false /\
  supplied (DataSource.ID config) || supplied (DataSource.Name config) = true /\
  serve R (GetJob "nightly") tt = (Ok sampleJob, tt) /\
  serve R (Job_GetConfig sampleJob) tt = (Ok xml, tt) /\
  Number (LastCompletedBuild (Job_Raw sampleJob)) <= 0 /\
  requests o = [GetJob "nightly"; Job_GetConfig sampleJob] /\
  exists m,
    State (value o) = Some m /\
    DataSource.LastBuildStatus m = StringValue "" /\
    DataSource.LastBuildDuration m = Int64Value 0.
Proof.
  split; [reflexivity|]. split; [reflexivity|]. split; [reflexivity|].
  split; [reflexivity|]. split; [vm_compute; discriminate|].
  apply (DataSource_without_build
           (scripted (answers true (buildPipelineConfigXML "nightly build" "echo hi")
                        sampleJob) sampleTime)
           tt tt tt [] (sampleConfig (StringValue "nightly") StringNull)
           (mkResponse [] None) sampleJob
           (buildPipelineConfigXML "nightly build" "echo hi"));
    first [reflexivity | vm_compute; discriminate].
Defined.

Lemma DataSource_with_build_witness :
  let xml := buildPipelineConfigXML "nightly build" "echo hi" in
  let R := scripted (answersBuilt xml builtJob sampleBuild) sampleTime in
  let resp : DataSource.ReadResponse := mkResponse [] None in
  let config := sampleConfig (StringValue "nightly") StringNull in
  let o := run R (DataSource.Read (DataSource.mkReadRequest (mkData ([], config))) resp) tt in
  HasError (Diagnostics_ (Append [] resp)) = false /\
  supplied (DataSource.ID config) || supplied (DataSource.Name config) = true /\
  serve R (GetJob "nightly") tt = (Ok builtJob, tt) /\
  serve R (Job_GetConfig builtJob) tt = (Ok xml, tt) /\
  0 < Number (LastCompletedBuild (Job_Raw builtJob)) /\
  serve R (Job_GetLastCompletedBuild builtJob) tt = (Ok sampleBuild, tt) /\
  int64_of_float64 (Duration (Build_Raw sampleBuild)) = 1500 /\
  requests o = [GetJob "nightly"; Job_GetConfig builtJob; Job_GetLastCompletedBuild builtJob] /\
  exists m,
    State (value o) = Some m /\
    DataSource.LastBuildStatus m = StringValue "SUCCESS" /\
    DataSource.LastBuildDuration m
      = Int64Value (int64_of_float64 (Duration (Build_Raw sampleBuild))).
Proof.
  split; [reflexivity|]. split; [reflexivity|]. split; [reflexivity|].
  split; [reflexivity|]. split; [reflexivity|]. split; [reflexivity|].
  split; [vm_compute; reflexivity|].
  apply (DataSource_with_build
           (scripted (answersBuilt (buildPipelineConfigXML "nightly build" "echo hi")
                        builtJob sampleBuild) sampleTime)
           tt tt tt tt [] (sampleConfig (StringValue "nightly") StringNull)
           (mkResponse [] None) builtJob
           (buildPipelineConfigXML "nightly build" "echo hi") sampleBuild);
    reflexivity.
Defined.

Lemma DataSource_build_failure_tolerated_witness :
  let xml := buildPipelineConfigXML "nightly build" "echo hi" in
  let R := scripted (answers true xml builtJob) sampleTime in
  let resp : DataSource.ReadResponse := mkResponse [] None in
  let config := sampleConfig (StringValue "nightly") StringNull in
  let o := run R (DataSource.Read (DataSource.mkReadRequest (mkData ([], config))) resp) tt in
  HasError (Diagnostics_ (Append [] resp)) = false /\
  supplied (DataSource.ID config) || supplied (DataSource.Name config) = true /\
  serve R (GetJob "nightly") tt = (Ok builtJob, tt) /\
  serve R (Job_GetConfig builtJob) tt = (Ok xml, tt) /\
  0 < Number (LastCompletedBuild (Job_Raw builtJob)) /\
  serve R (Job_GetLastCompletedBuild builtJob) tt = (Err "no completed build", tt) /\
  (exists m,
     State (value o) = Some m /\
     DataSource.LastBuildStatus m = StringValue "" /\
     DataSource.LastBuildDuration m = Int64Value 0) /\
  HasError (Diagnostics_ (value o)) = false /\
  In "[WARN] Could not get last completed build details for 'nightly': no completed build"
     (logged o).
Proof.
  split; [reflexivity|]. split; [reflexivity|]. split; [reflexivity|].
  split; [reflexivity|]. split; [reflexivity|]. split; [reflexivity|].
  destruct (DataSource_build_failure_tolerated
              (scripted (answers true (buildPipelineConfigXML "nightly build" "echo hi")
                           builtJob) sampleTime)
              tt tt tt tt [] (sampleConfig (StringValue "nightly") StringNull)
              (mkResponse [] None) builtJob
              (buildPipelineConfigXML "nightly build" "echo hi") "no completed build"
              eq_refl eq_refl eq_refl eq_refl eq_refl eq_refl)
    as [Hm [_ [He Hl]]].
  split; [exact Hm|]. split; [exact (He eq_refl eq_refl) | exact Hl].
Defined.

Lemma DataSource_partial_decode_witness :
  let R := scripted (answers true descriptionOnly sampleJob) sampleTime in
  let resp : DataSource.ReadResponse := mkResponse [] None in
  let config := sampleConfig (StringValue "nightly") StringNull in
  let o := run R (DataSource.Read (DataSource.mkReadRequest (mkData ([], config))) resp) tt in
  HasError (Diagnostics_ (Append [] resp)) = false /\
  supplied (DataSource.ID config) || supplied (DataSource.Name config) = true /\
  serve R (GetJob "nightly") tt = (Ok sampleJob, tt) /\
  serve R (Job_GetConfig sampleJob) tt = (Ok descriptionOnly, tt) /\
  extractGroovyScriptFromXML descriptionOnly
    = Err "could not find start of Groovy script tag in XML" /\
  (exists m,
     State (value o) = Some m /\
     DataSource.Description m
       = StringValue (orEmpty (extractDescriptionFromXML descriptionOnly)) /\
     DataSource.GroovyScript m
       = StringValue (orEmpty (extractGroovyScriptFromXML descriptionOnly))) /\
  In (mkDiagnostic SeverityError "Groovy Script Extraction Error"
        "Failed to extract Groovy script from job 'nightly' config: could not find start of Groovy script tag in XML")
     (Diagnostics_ (value o)) /\
  HasError (Diagnostics_ (value o)) = true.
Proof.
  split; [reflexivity|]. split; [reflexivity|]. split; [reflexivity|].
  split; [reflexivity|]. split; [reflexivity|].
  destruct (DataSource_partial_decode
              (scripted (answers true descriptionOnly sampleJob) sampleTime)
              tt tt tt [] (sampleConfig (StringValue "nightly") StringNull)
              (mkResponse [] None) sampleJob descriptionOnly
              eq_refl eq_refl eq_refl eq_refl)
    as [Hm [Hg _]].
  split; [exact Hm|].
  exact (Hg "could not find start of Groovy script tag in XML" eq_refl).
Defined.

Lemma DataSource_recovers_definition_witness :
  let xml := buildPipelineConfigXML "nightly build" "echo hi" in
  let R := scripted (answers true xml sampleJob) sampleTime in
  let resp : DataSource.ReadResponse := mkResponse [] None in
  let config := sampleConfig (StringValue "nightly") StringNull in
  let o := run R (DataSource.Read (DataSource.mkReadRequest (mkData ([], config))) resp) tt in
  HasError (Diagnostics_ (Append [] resp)) = false /\
  supplied (DataSource.ID config) || supplied (DataSource.Name config) = true /\
  Contains "echo hi" scriptEnd = false /\
  Contains "nightly build" descEnd = false /\
  Contains "nightly build" scriptStart = false /\
  serve R (GetJob "nightly") tt = (Ok sampleJob, tt) /\
  serve R (Job_GetConfig sampleJob) tt = (Ok xml, tt) /\
  (exists m,
     State (value o) = Some m /\
     DataSource.Description m = StringValue "nightly build" /\
     DataSource.GroovyScript m = StringValue "echo hi") /\
  HasError (Diagnostics_ (value o)) = false.
Proof.
  split; [reflexivity|]. split; [reflexivity|]. split; [reflexivity|].
  split; [reflexivity|]. split; [reflexivity|]. split; [reflexivity|].
  split; [reflexivity|].
  apply (DataSource_recovers_definition
           (scripted (answers true (buildPipelineConfigXML "nightly build" "echo hi")
                        sampleJob) sampleTime)
           tt tt tt [] (sampleConfig (StringValue "nightly") StringNull)
           (mkResponse [] None) sampleJob "nightly build" "echo hi");
    reflexivity.
Defined.
